(** * CLIP OS Buildbot master configuration (master.py)

    A shallow embedding of the buildmaster configuration module: the worker
    catalog, the builders, and the periodic and forced schedulers, followed
    by the properties of that configuration.

    The module is a script: it runs top to bottom once and leaves its result
    in the dictionary [c].  Its [for] loops append to module-level lists and
    rebind module-level names; they are embedded as left folds over an
    explicit loop state.  A name that is read before any loop iteration has
    bound it raises [NameError]; this is the [None] of [option].

    Presentation-only arguments (description, label, buttonName, layout,
    size, cols, rows) are left out of the records: nothing in the module
    reads them back. *)

From stdpp Require Import base option list strings gmap.

Open Scope string_scope.
Open Scope list_scope.

Set Warnings "-register-all,-clear-no-such-hyp".

(** ** Data model *)

(** [clipos.buildmaster.SetupSettings]: the deployment settings the module
    reads. *)
Record SetupSettings := {
  docker_worker_containers_network_mode : string;
  docker_host_uri : string;
  buildmaster_host_for_dockerized_workers : string;
  clipos_manifest_git_url : string;
  config_git_clone_url : string;
  config_git_revision : string;
}.

(** The value of one entry of [DockerLatentWorker.FLAVORS]; the module reads
    only [props['description']]. *)
Record FlavorProps := { description : string }.

(** [clipos.workers.DockerLatentWorker(...)], with the keyword arguments the
    module passes. *)
Record DockerLatentWorker := {
  flavor : string;
  privileged : bool;
  container_network_mode : string;
  docker_host : string;
  worker_buildmaster_host : string;
  max_builds : nat;
}.

Inductive Worker :=
| LocalWorker (name : string)
| Latent (w : DockerLatentWorker).

Inductive BuildFactory :=
| BuildDockerImage (fl : string) (buildmaster_setup : SetupSettings)
| RepoSyncFromScratchAndArchive (buildmaster_setup : SetupSettings)
| ClipOsProductBuildBuildFactory (buildmaster_setup : SetupSettings).

(** [util.BuilderConfig] *)
Record BuilderConfig := {
  bc_name : string;
  bc_tags : list string;
  bc_workernames : list string;
  bc_factory : BuildFactory;
}.

(** A property value: the module uses booleans and strings. *)
Inductive Value :=
| VBool (b : bool)
| VStr (s : string).

(** The parameters of a [ForceScheduler]. *)
Inductive ForceParameter :=
| FixedParameter (name : string) (default : Value)
| BooleanParameter (name : string) (default : bool)
| StringParameter (name : string) (default : string)
| UserNameParameter (name : string) (default : string)
| TextParameter (name : string) (default : string)
| ChoiceStringParameter (name : string) (choices : list string)
    (default : string)
| NestedParameter (name : string) (fields : list ForceParameter).

(** One field of a codebase: a plain value ([None] is Python's [None]) or a
    [util.StringParameter] the caller may edit. *)
Inductive CodebaseField :=
| CbValue (v : option string)
| CbStringParameter (name : string) (default : string).

(** [util.CodebaseParameter]; [oneCodebase] builds the one-element list
    holding the [CodebaseParameter] of the codebase with the empty name. *)
Record CodebaseParameter := {
  cb_codebase : string;
  cb_project : CodebaseField;
  cb_repository : CodebaseField;
  cb_branch : CodebaseField;
  cb_revision : CodebaseField;
}.

(** An entry of the [codebases] dictionary of a [Nightly] scheduler. *)
Record Codebase := {
  repository : string;
  branch : string;
}.

Inductive Scheduler :=
| Nightly (name : string) (builderNames : list string) (dayOfWeek : string)
    (hour minute : nat) (codebases : gmap string Codebase)
    (properties : gmap string Value)
| ForceScheduler (name : string) (builderNames : list string)
    (codebases : list CodebaseParameter) (properties : list ForceParameter).

(** The constructors above record the arguments the module passes.  Two
    things that Buildbot's own constructors add to every scheduler object
    are part of what the module configures and are read by the observers
    below: the scheduler base class stores the [properties] argument and
    then sets the property [scheduler] to the scheduler's name; and a
    [ForceScheduler] that is built without [username] and [reason]
    arguments, as all three of the module are, takes the defaults
    [UserNameParameter()] and
    [StringParameter(name="reason", default="force build")]. *)

(** The keys of [c] that hold the workers, the builders and the
    schedulers; [change_source] and [services] are empty lists and
    [configurators] holds the log janitor. *)
Record MasterConfig := {
  workers : list Worker;
  builders : list BuilderConfig;
  schedulers : list Scheduler;
}.

#[global] Instance SetupSettings_eq_dec : EqDecision SetupSettings.
Proof. solve_decision. Defined.
#[global] Instance BuildFactory_eq_dec : EqDecision BuildFactory.
Proof. solve_decision. Defined.
#[global] Instance BuilderConfig_eq_dec : EqDecision BuilderConfig.
Proof. solve_decision. Defined.
#[global] Instance DockerLatentWorker_eq_dec : EqDecision DockerLatentWorker.
Proof. solve_decision. Defined.
#[global] Instance Worker_eq_dec : EqDecision Worker.
Proof. solve_decision. Defined.
#[global] Instance Value_eq_dec : EqDecision Value.
Proof. solve_decision. Defined.

(** ** Observers *)

Definition sched_name (s : Scheduler) : string :=
  match s with
  | Nightly n _ _ _ _ _ _ => n
  | ForceScheduler n _ _ _ => n
  end.

Definition sched_builderNames (s : Scheduler) : list string :=
  match s with
  | Nightly _ bs _ _ _ _ _ => bs
  | ForceScheduler _ bs _ _ => bs
  end.

Definition param_name (p : ForceParameter) : string :=
  match p with
  | FixedParameter n _ => n
  | BooleanParameter n _ => n
  | StringParameter n _ => n
  | UserNameParameter n _ => n
  | TextParameter n _ => n
  | ChoiceStringParameter n _ _ => n
  | NestedParameter n _ => n
  end.

(** The name under which a parameter's value reaches the build: a nest with
    the empty name is anonymous and leaves its fields' names as they are
    (the reason the module gives for its empty names); a named nest prefixes
    them. *)
Definition full_name (parent n : string) : string :=
  if decide (parent = "") then n
  else if decide (n = "") then parent
  else parent +:+ "_" +:+ n.

(** The leaves of a parameter tree with their full names, left to right. *)
Fixpoint param_leaves (parent : string) (p : ForceParameter)
  : list (string * ForceParameter) :=
  match p with
  | NestedParameter n fields =>
      flat_map (param_leaves (full_name parent n)) fields
  | _ => [(full_name parent (param_name p), p)]
  end.

(** The [username] and [reason] parameters of a [ForceScheduler] built
    without these arguments: [UserNameParameter] is a string parameter
    named [username] with the empty default. *)
Definition default_username : ForceParameter :=
  UserNameParameter "username" "".
Definition default_reason : ForceParameter :=
  StringParameter "reason" "force build".

(** The parameters of the form of a forced scheduler: an anonymous nest
    holding [username] and [reason], then the [properties] argument.  (The
    form also shows the codebases, between the two; they make the source
    stamp, not the properties, and are observed by [codebase_keys].) *)
Definition force_fields (s : Scheduler) : list ForceParameter :=
  match s with
  | Nightly _ _ _ _ _ _ _ => []
  | ForceScheduler _ _ _ ps =>
      NestedParameter "" [default_username; default_reason] :: ps
  end.

Definition force_leaves (s : Scheduler) : list (string * ForceParameter) :=
  flat_map (param_leaves "") (force_fields s).

(** The parameter keys a forced scheduler takes from its caller or fixes
    itself, its codebases aside. *)
Definition force_keys (s : Scheduler) : list string := (force_leaves s).*1.

(** The fields of the codebases of a forced scheduler that its caller may
    edit, by the names of their [StringParameter]s. *)
Definition codebase_field_keys (f : CodebaseField) : list string :=
  match f with
  | CbValue _ => []
  | CbStringParameter n _ => [n]
  end.

Definition codebase_keys (s : Scheduler) : list string :=
  match s with
  | Nightly _ _ _ _ _ _ _ => []
  | ForceScheduler _ _ cbs _ =>
      cbs ≫= λ cb,
        codebase_field_keys (cb_project cb)
        ++ codebase_field_keys (cb_repository cb)
        ++ codebase_field_keys (cb_branch cb)
        ++ codebase_field_keys (cb_revision cb)
  end.

(** The properties a scheduler object holds: the [properties] argument (a
    [ForceScheduler] hands the base class an empty dictionary), in which
    the key [scheduler] is then set to the scheduler's name. *)
Definition sched_properties (s : Scheduler) : gmap string Value :=
  <["scheduler" := VStr (sched_name s)]>
    match s with
    | Nightly _ _ _ _ _ _ props => props
    | ForceScheduler _ _ _ _ => ∅
    end.

(** The fixed property set of a periodic scheduler. *)
Definition periodic_properties (s : Scheduler) : option (gmap string Value) :=
  match s with
  | Nightly _ _ _ _ _ _ _ => Some (sched_properties s)
  | ForceScheduler _ _ _ _ => None
  end.

(** The value a periodic scheduler fixes for a key. *)
Definition periodic_value (s : Scheduler) (key : string) : option Value :=
  props ← periodic_properties s; props !! key.

Definition sched_dayOfWeek (s : Scheduler) : option string :=
  match s with
  | Nightly _ _ d _ _ _ _ => Some d
  | ForceScheduler _ _ _ _ => None
  end.

(** ** The module *)

Section Master.

(** What the module imports from the [clipos] package. *)
Variable setup : SetupSettings.
(** [clipos.workers.DockerLatentWorker.FLAVORS], a dictionary, in its
    iteration order. *)
Variable FLAVORS : list (string * FlavorProps).
(** The [name] attribute that the [DockerLatentWorker] constructor gives a
    worker. *)
Variable docker_worker_name : DockerLatentWorker → string.
(** The example manifest that is the default of [local_manifest_xml]. *)
Variable local_manifest_example : string.

Definition worker_name (w : Worker) : string :=
  match w with
  | LocalWorker n => n
  | Latent d => docker_worker_name d
  end.

(** *** Workers *)

Definition docker_operations_worker : Worker :=
  LocalWorker "_docker-client-localworker".

Definition reference_worker_flavor : string := "debian-sid".

(** The three lists the worker loop appends to. *)
Record WorkerLists := {
  all_ws : list DockerLatentWorker;
  unprivileged_ws : list DockerLatentWorker;
  privileged_ws : list DockerLatentWorker;
}.

Definition new_worker (fl : string) (priv : bool) : DockerLatentWorker :=
  {| flavor := fl;
     privileged := priv;
     container_network_mode := docker_worker_containers_network_mode setup;
     docker_host := docker_host_uri setup;
     worker_buildmaster_host :=
       buildmaster_host_for_dockerized_workers setup;
     max_builds := 5 |}.

(** The body of the inner loop, [for privileged in [False, True]]. *)
Definition worker_loop_body (fl : string) (st : WorkerLists) (priv : bool)
  : WorkerLists :=
  let worker := new_worker fl priv in
  let all' := all_ws st ++ [worker] in
  if decide (fl = reference_worker_flavor) then
    if priv then
      {| all_ws := all';
         unprivileged_ws := unprivileged_ws st;
         privileged_ws := privileged_ws st ++ [worker] |}
    else
      {| all_ws := all';
         unprivileged_ws := unprivileged_ws st ++ [worker];
         privileged_ws := privileged_ws st |}
  else
    {| all_ws := all';
       unprivileged_ws := unprivileged_ws st;
       privileged_ws := privileged_ws st |}.

(** [for flavor in FLAVORS: for privileged in [False, True]: ...] *)
Definition worker_loop : WorkerLists :=
  foldl (λ st fl, foldl (worker_loop_body fl) st [false; true])
    {| all_ws := []; unprivileged_ws := []; privileged_ws := [] |}
    FLAVORS.*1.

Definition all_clipos_docker_latent_workers : list DockerLatentWorker :=
  all_ws worker_loop.
Definition unprivileged_reference_workers : list DockerLatentWorker :=
  unprivileged_ws worker_loop.
Definition privileged_reference_workers : list DockerLatentWorker :=
  privileged_ws worker_loop.

Definition c_workers : list Worker :=
  docker_operations_worker :: (Latent <$> all_clipos_docker_latent_workers).


(** *** Builders *)

(** The [BuilderConfig] one iteration of the image-builder loop creates. *)
Definition docker_image_builder (fl : string) : BuilderConfig :=
  {| bc_name := "docker-worker-image env:" +:+ fl;
     bc_tags := ["docker-worker-image"; "docker-env:" +:+ fl];
     bc_workernames := [worker_name docker_operations_worker];
     bc_factory := BuildDockerImage fl setup |}.

(** [for flavor, props in FLAVORS.items(): ....append(BuilderConfig(...))];
    [props] feeds only the description. *)
Definition docker_buildenv_image_builders : list BuilderConfig :=
  foldl (λ acc item, acc ++ [docker_image_builder item.1]) [] FLAVORS.

Definition repo_sync_builder : BuilderConfig :=
  {| bc_name := "repo-sync";
     bc_tags := ["repo-sync"; "update-artifacts"];
     bc_workernames :=
       docker_worker_name <$>
         filter (λ worker, flavor worker = reference_worker_flavor
                           ∧ privileged worker = false)
           all_clipos_docker_latent_workers;
     bc_factory := RepoSyncFromScratchAndArchive setup |}.

(** The names the builder loop binds: [reference_clipos_builder] is unbound
    until an iteration meets the reference flavor. *)
Record BuilderLoop := {
  reference_builder : option BuilderConfig;
  on_all_flavors : list BuilderConfig;
}.

(** [builder_name] at the end of the loop body's first three lines. *)
Definition builder_name (fl : string) : string :=
  if decide (fl ≠ reference_worker_flavor)
  then "clipos" +:+ (" env:" +:+ fl)
  else "clipos".

(** [builder = util.BuilderConfig(...)] *)
Definition clipos_builder (fl : string) : BuilderConfig :=
  {| bc_name := builder_name fl;
     bc_tags := ["clipos"; "docker-env:" +:+ fl];
     bc_workernames :=
       docker_worker_name <$>
         filter (λ worker, flavor worker = fl ∧ privileged worker = true)
           all_clipos_docker_latent_workers;
     bc_factory := ClipOsProductBuildBuildFactory setup |}.

Definition builder_loop_body (st : BuilderLoop) (fl : string) : BuilderLoop :=
  let builder := clipos_builder fl in
  {| reference_builder :=
       if decide (fl = reference_worker_flavor) then Some builder
       else reference_builder st;
     on_all_flavors := on_all_flavors st ++ [builder] |}.

Definition builder_loop : BuilderLoop :=
  foldl builder_loop_body
    {| reference_builder := None; on_all_flavors := [] |} FLAVORS.*1.

Definition clipos_on_all_flavors_builders : list BuilderConfig :=
  on_all_flavors builder_loop.
Definition reference_clipos_builder : option BuilderConfig :=
  reference_builder builder_loop.

Definition clipos_ondemand_builder : BuilderConfig :=
  {| bc_name := "clipos ondemand";
     bc_tags := ["clipos"; "on-demand";
                 "docker-env:" +:+ reference_worker_flavor];
     bc_workernames := docker_worker_name <$> privileged_reference_workers;
     bc_factory := ClipOsProductBuildBuildFactory setup |}.

Definition c_builders : list BuilderConfig :=
  docker_buildenv_image_builders
  ++ [repo_sync_builder]
  ++ clipos_on_all_flavors_builders
  ++ [clipos_ondemand_builder].

(** *** Schedulers *)

(** A dictionary display [{k1: v1, ...}]: the items are stored left to
    right. *)
Definition dict {V} (items : list (string * V)) : gmap string V :=
  foldl (λ m item, <[item.1 := item.2]> m) ∅ items.

Definition manifest_codebases : gmap string Codebase :=
  dict [("", {| repository := clipos_manifest_git_url setup;
                branch := "master" |})].

Definition repo_sync_nightly_sched : Scheduler :=
  Nightly "repo-sync-nightly-update"
    [bc_name repo_sync_builder]
    "1,2,3,4,5" 0 0
    manifest_codebases
    (dict [("cleanup_workspace", VBool true)]).

(** The schedulers below read [reference_clipos_builder]; they take the
    builder that name is bound to. *)
Definition clipos_incremental_build_intraday_sched
    (reference_clipos_builder : BuilderConfig) : Scheduler :=
  Nightly "clipos-master-intraday-incremental-build"
    [bc_name reference_clipos_builder]
    "1,2,3,4,5" 12 30
    manifest_codebases
    (dict [
       ("cleanup_workspace", VBool true);
       ("force_repo_quicksync_artifacts_download", VBool false);
       ("buildername_providing_repo_quicksync_artifacts",
         VStr (bc_name repo_sync_builder));
       ("produce_sdks_artifacts", VBool false);
       ("reuse_sdks_artifacts", VBool true);
       ("buildername_providing_sdks_artifacts",
         VStr (bc_name reference_clipos_builder));
       ("produce_cache_artifacts", VBool false);
       ("reuse_cache_artifacts", VBool true);
       ("buildername_providing_cache_artifacts",
         VStr (bc_name reference_clipos_builder));
       ("produce_build_artifacts", VBool true)
     ]).

Definition clipos_build_nightly_sched
    (reference_clipos_builder : BuilderConfig) : Scheduler :=
  Nightly "clipos-master-nightly-build"
    [bc_name reference_clipos_builder]
    "1,2,3,4,5" 0 45
    manifest_codebases
    (dict [
       ("cleanup_workspace", VBool true);
       ("force_repo_quicksync_artifacts_download", VBool false);
       ("buildername_providing_repo_quicksync_artifacts",
         VStr (bc_name repo_sync_builder));
       ("produce_sdks_artifacts", VBool true);
       ("reuse_sdks_artifacts", VBool false);
       ("produce_cache_artifacts", VBool true);
       ("reuse_cache_artifacts", VBool false);
       ("produce_build_artifacts", VBool true)
     ]).

Definition clipos_build_weekly_sched : Scheduler :=
  Nightly "clipos-master-weekly-build"
    (bc_name <$> clipos_on_all_flavors_builders)
    "6" 12 0
    manifest_codebases
    (dict [
       ("cleanup_workspace", VBool true);
       ("force_repo_quicksync_artifacts_download", VBool true);
       ("buildername_providing_repo_quicksync_artifacts",
         VStr (bc_name repo_sync_builder));
       ("produce_sdks_artifacts", VBool true);
       ("reuse_sdks_artifacts", VBool false);
       ("produce_cache_artifacts", VBool true);
       ("reuse_cache_artifacts", VBool false);
       ("produce_build_artifacts", VBool true)
     ]).

Definition config_codebases : gmap string Codebase :=
  dict [("", {| repository := config_git_clone_url setup;
                branch := config_git_revision setup |})].

(** No [properties] argument: it defaults to the empty dictionary. *)
Definition docker_buildenv_image_rebuild_weekly_sched : Scheduler :=
  Nightly "docker-workers-weekly-rebuild"
    (bc_name <$> docker_buildenv_image_builders)
    "6" 9 0
    config_codebases
    ∅.

Definition oneCodebase (project : option string) (repo br : string)
    (revision : option string) : list CodebaseParameter :=
  [ {| cb_codebase := "";
       cb_project := CbValue project;
       cb_repository := CbValue (Some repo);
       cb_branch := CbValue (Some br);
       cb_revision := CbValue revision |} ].

(** No [properties] argument: the form holds [username] and [reason]
    only. *)
Definition docker_buildenv_image_rebuild_force_sched : Scheduler :=
  ForceScheduler "force-docker-buildenv-image"
    (bc_name <$> docker_buildenv_image_builders)
    (oneCodebase None (config_git_clone_url setup)
       (config_git_revision setup) None)
    [].

Definition repo_sync_force_sched : Scheduler :=
  ForceScheduler "force-repo-sync-clipos"
    [bc_name repo_sync_builder]
    (oneCodebase None (clipos_manifest_git_url setup) "master" None)
    [FixedParameter "cleanup_workspace" (VBool true)].

Definition clipos_custom_build_force_sched
    (reference_clipos_builder : BuilderConfig) : Scheduler :=
  ForceScheduler "clipos-custom-build"
    [bc_name clipos_ondemand_builder]
    [ {| cb_codebase := "";
         cb_project := CbValue (Some "clipos");
         cb_repository :=
           CbStringParameter "repository" (clipos_manifest_git_url setup);
         cb_branch := CbStringParameter "branch" "master";
         cb_revision := CbValue None |} ]
    [ FixedParameter "buildername_providing_repo_quicksync_artifacts"
        (VStr (bc_name repo_sync_builder));
      NestedParameter "" [
        NestedParameter "" [
          BooleanParameter "use_local_manifest" false;
          TextParameter "local_manifest_xml" local_manifest_example
        ];
        NestedParameter "" [
          BooleanParameter "cleanup_workspace" true;
          BooleanParameter "force_repo_quicksync_artifacts_download" false
        ];
        NestedParameter "" [
          BooleanParameter "produce_sdks_artifacts" false;
          BooleanParameter "reuse_sdks_artifacts" true;
          ChoiceStringParameter "buildername_providing_sdks_artifacts"
            (bc_name <$> clipos_on_all_flavors_builders)
            (bc_name reference_clipos_builder);
          BooleanParameter "produce_cache_artifacts" false;
          BooleanParameter "reuse_cache_artifacts" true;
          ChoiceStringParameter "buildername_providing_cache_artifacts"
            (bc_name <$> clipos_on_all_flavors_builders)
            (bc_name reference_clipos_builder);
          BooleanParameter "produce_build_artifacts" false
        ]
      ]
    ].

Definition c_schedulers (reference_clipos_builder : BuilderConfig)
  : list Scheduler :=
  [ clipos_incremental_build_intraday_sched reference_clipos_builder;
    repo_sync_nightly_sched;
    clipos_build_nightly_sched reference_clipos_builder;
    clipos_build_weekly_sched;
    docker_buildenv_image_rebuild_weekly_sched;
    repo_sync_force_sched;
    docker_buildenv_image_rebuild_force_sched;
    clipos_custom_build_force_sched reference_clipos_builder ].

(** The configuration the module leaves in [c]; [None] when reading
    [reference_clipos_builder] raises [NameError], which happens at the
    first scheduler that names it. *)
Definition BuildmasterConfig : option MasterConfig :=
  rb ← reference_clipos_builder;
  Some {| workers := c_workers;
          builders := c_builders;
          schedulers := c_schedulers rb |}.

End Master.

(** ** A sample deployment

    [FLAVORS] and the worker constructor belong to the [clipos] package;
    the instances below give them concrete values to evaluate the
    configuration on. *)

Definition sample_setup : SetupSettings :=
  {| docker_worker_containers_network_mode := "bridge";
     docker_host_uri := "unix:///var/run/docker.sock";
     buildmaster_host_for_dockerized_workers := "buildmaster";
     clipos_manifest_git_url := "https://review.clip-os.org/clipos/manifest";
     config_git_clone_url := "https://github.com/clipos/ci";
     config_git_revision := "master" |}.

Definition sample_FLAVORS : list (string * FlavorProps) :=
  [ ("debian-sid", {| description := "Debian sid" |});
    ("fedora", {| description := "Fedora" |}) ].

Definition sample_worker_name (w : DockerLatentWorker) : string :=
  "docker-env-" +:+ flavor w
  +:+ (if privileged w then "-privileged" else "-unprivileged").

Definition sample_manifest : string := "<manifest></manifest>".

Definition sample_config : option MasterConfig :=
  BuildmasterConfig sample_setup sample_FLAVORS sample_worker_name
    sample_manifest.

Definition sample_catalog : list DockerLatentWorker :=
  all_clipos_docker_latent_workers sample_setup sample_FLAVORS.

(** The builder [reference_clipos_builder] is bound to in the sample. *)
Definition sample_reference_builder : BuilderConfig :=
  clipos_builder sample_setup sample_FLAVORS sample_worker_name "debian-sid".

(** The configuration of the sample deployment. *)
Definition sample_master : MasterConfig :=
  {| workers := c_workers sample_setup sample_FLAVORS;
     builders := c_builders sample_setup sample_FLAVORS sample_worker_name;
     schedulers :=
       c_schedulers sample_setup sample_FLAVORS sample_worker_name
         sample_manifest sample_reference_builder |}.


(** ** Vocabulary of the properties *)

(** The identity of a catalog entry: its flavor and its privilege level. *)
Definition identity (w : DockerLatentWorker) : string * bool :=
  (flavor w, privileged w).

(** The two workers the loop creates for one flavor, in creation order. *)
Definition workers_of_flavor (setup : SetupSettings) (fl : string)
  : list DockerLatentWorker :=
  [new_worker setup fl false; new_worker setup fl true].

(** [strip_prefix pre s] is [Some rest] when [s = pre +:+ rest]. *)
Fixpoint strip_prefix (pre s : string) : option string :=
  match pre, s with
  | EmptyString, _ => Some s
  | String a pre', String b s' =>
      if decide (a = b) then strip_prefix pre' s' else None
  | String _ _, EmptyString => None
  end.

(** [ends_with suf s] holds when [s = kind +:+ suf] for some [kind]. *)
Fixpoint ends_with (suf s : string) : bool :=
  bool_decide (s = suf) ||
  match s with
  | EmptyString => false
  | String _ s' => ends_with suf s'
  end.

(** A key of the shape [pre<kind>suf]. *)
Definition has_shape (pre suf key : string) : bool :=
  match strip_prefix pre key with
  | Some rest => ends_with suf rest
  | None => false
  end.

(** The keys of one artifact kind, as the module spells them. *)
Definition force_key (kind : string) : string :=
  "force_" +:+ kind +:+ "_artifacts_download".
Definition produce_key (kind : string) : string :=
  "produce_" +:+ kind +:+ "_artifacts".
Definition reuse_key (kind : string) : string :=
  "reuse_" +:+ kind +:+ "_artifacts".
Definition source_key (kind : string) : string :=
  "buildername_providing_" +:+ kind +:+ "_artifacts".

(** The recognized keys of the trigger surface: [cleanup_workspace] and,
    for a kind, the force-fetch, produce, reuse and source-target keys. *)
Definition recognized_key (key : string) : bool :=
  bool_decide (key = "cleanup_workspace")
  || has_shape "force_" "_artifacts_download" key
  || has_shape "produce_" "_artifacts" key
  || has_shape "reuse_" "_artifacts" key
  || has_shape "buildername_providing_" "_artifacts" key.

(** The declared default of a boolean parameter. *)
Definition bool_default (p : ForceParameter) : option bool :=
  match p with
  | BooleanParameter _ d => Some d
  | _ => None
  end.

(** [has_key s key]: the scheduler [s] holds the key [key], in the
    properties of the scheduler object or as a parameter of its form. *)
Definition has_key (s : Scheduler) (key : string) : Prop :=
  is_Some (sched_properties s !! key) ∨ key ∈ force_keys s.

#[global] Instance has_key_dec s key : Decision (has_key s key).
Proof. unfold has_key. apply _. Defined.

(** The catalog workers a builder is tied to: those whose name is among the
    builder's [workernames]. *)
Definition tied_workers (name_of : DockerLatentWorker → string)
    (catalog : list DockerLatentWorker) (b : BuilderConfig)
  : list DockerLatentWorker :=
  filter (λ w, name_of w ∈ bc_workernames b) catalog.

Definition is_local (w : Worker) : bool :=
  match w with
  | LocalWorker _ => true
  | Latent _ => false
  end.

Definition is_docker_image_factory (f : BuildFactory) : bool :=
  match f with
  | BuildDockerImage _ _ => true
  | _ => false
  end.


(** The reading of the trigger surface on the configuration: every key a
    forced scheduler takes is a recognized key. *)
Definition forced_keys_all_recognized (c : MasterConfig) : Prop :=
  ∀ s key, s ∈ schedulers c → key ∈ force_keys s → recognized_key key.

(** A second sample: a [FLAVORS] dictionary without the reference flavor. *)
Definition sample_FLAVORS_without_reference : list (string * FlavorProps) :=
  [ ("fedora", {| description := "Fedora" |}) ].

(** The builder names a string-valued property holds. *)
Definition value_names (v : Value) : list string :=
  match v with
  | VStr n => [n]
  | VBool _ => []
  end.

(** The builder names a forced parameter can submit: the value of a fixed
    parameter, the default and the choices of a choice parameter. *)
Definition param_provider_names (p : ForceParameter) : list string :=
  match p with
  | FixedParameter _ v => value_names v
  | ChoiceStringParameter _ choices d => d :: choices
  | _ => []
  end.

(** The builders a scheduler names as providers of the artifacts of a kind,
    under the key [buildername_providing_<kind>_artifacts]. *)
Definition provider_names (s : Scheduler) (kind : string) : list string :=
  match s with
  | Nightly _ _ _ _ _ _ _ =>
      from_option value_names [] (sched_properties s !! source_key kind)
  | ForceScheduler _ _ _ _ =>
      filter (λ item, item.1 = source_key kind) (force_leaves s)
        ≫= λ item, param_provider_names item.2
  end.

(** [param_admits p v]: the forced parameter [p] can submit the value [v]:
    any boolean for a boolean parameter, any text for a string, user name
    or text parameter, its
    own value for a fixed parameter, one of its choices for a choice
    parameter. *)
Definition param_admits (p : ForceParameter) (v : Value) : bool :=
  match p, v with
  | BooleanParameter _ _, VBool _ => true
  | StringParameter _ _, VStr _ => true
  | UserNameParameter _ _, VStr _ => true
  | TextParameter _ _, VStr _ => true
  | FixedParameter _ v0, _ => bool_decide (v = v0)
  | ChoiceStringParameter _ choices _, VStr n => bool_decide (n ∈ choices)
  | _, _ => false
  end.

(** The value a codebase field has when the caller leaves it alone. *)
Definition field_default (f : CodebaseField) : option string :=
  match f with
  | CbValue v => v
  | CbStringParameter _ d => Some d
  end.

(** The repository and the branch a scheduler gives the codebase with the
    empty name, the only codebase of the module. *)
Definition sched_repository (s : Scheduler) : option string :=
  match s with
  | Nightly _ _ _ _ _ cbs _ => repository <$> cbs !! ""
  | ForceScheduler _ _ cbs _ =>
      cb ← head (filter (λ cb, cb_codebase cb = "") cbs);
      field_default (cb_repository cb)
  end.

Definition sched_branch (s : Scheduler) : option string :=
  match s with
  | Nightly _ _ _ _ _ cbs _ => branch <$> cbs !! ""
  | ForceScheduler _ _ cbs _ =>
      cb ← head (filter (λ cb, cb_codebase cb = "") cbs);
      field_default (cb_branch cb)
  end.

(** ** Properties *)

Section Properties.

Variable setup : SetupSettings.
Variable FLAVORS : list (string * FlavorProps).
Variable docker_worker_name : DockerLatentWorker → string.
Variable local_manifest_example : string.

Local Abbreviation catalog := (all_clipos_docker_latent_workers setup FLAVORS).
Local Abbreviation outer_body :=
  (λ st fl, foldl (worker_loop_body setup fl) st [false; true]).

(** *** The worker loop *)

Lemma worker_loop_body_all fl st p :
  all_ws (worker_loop_body setup fl st p) = all_ws st ++ [new_worker setup fl p].
Proof.
  unfold worker_loop_body. case_decide; [destruct p|]; reflexivity.
Qed.

Lemma worker_loop_body_privileged fl st p :
  privileged_ws (worker_loop_body setup fl st p) =
  privileged_ws st ++
    filter (λ w, flavor w = reference_worker_flavor ∧ privileged w = true)
      [new_worker setup fl p].
Proof.
  unfold worker_loop_body. rewrite filter_cons, filter_nil.
  case_decide as Hfl; [destruct p|]; simpl.
  - rewrite decide_True by done. reflexivity.
  - rewrite decide_False by naive_solver. by rewrite app_nil_r.
  - rewrite decide_False by naive_solver. by rewrite app_nil_r.
Qed.

Lemma worker_loop_body_unprivileged fl st p :
  unprivileged_ws (worker_loop_body setup fl st p) =
  unprivileged_ws st ++
    filter (λ w, flavor w = reference_worker_flavor ∧ privileged w = false)
      [new_worker setup fl p].
Proof.
  unfold worker_loop_body. rewrite filter_cons, filter_nil.
  case_decide as Hfl; [destruct p|]; simpl.
  - rewrite decide_False by naive_solver. by rewrite app_nil_r.
  - rewrite decide_True by done. reflexivity.
  - rewrite decide_False by naive_solver. by rewrite app_nil_r.
Qed.

Lemma worker_loop_all_from st keys :
  all_ws (foldl outer_body st keys) =
  all_ws st ++ (keys ≫= workers_of_flavor setup).
Proof.
  revert st. induction keys as [|fl keys IH]; intros st.
  - simpl. by rewrite app_nil_r.
  - rewrite bind_cons. cbn [foldl]. rewrite IH, !worker_loop_body_all.
    unfold workers_of_flavor at 2. by rewrite <- !app_assoc.
Qed.

Lemma worker_loop_privileged_from st keys :
  privileged_ws (foldl outer_body st keys) =
  privileged_ws st ++
    filter (λ w, flavor w = reference_worker_flavor ∧ privileged w = true)
      (keys ≫= workers_of_flavor setup).
Proof.
  revert st. induction keys as [|fl keys IH]; intros st.
  - simpl. by rewrite app_nil_r.
  - rewrite bind_cons. cbn [foldl]. rewrite IH, !worker_loop_body_privileged.
    unfold workers_of_flavor at 2.
    change [new_worker setup fl false; new_worker setup fl true]
      with ([new_worker setup fl false] ++ [new_worker setup fl true]).
    rewrite !filter_app. by rewrite <- !app_assoc.
Qed.

Lemma worker_loop_unprivileged_from st keys :
  unprivileged_ws (foldl outer_body st keys) =
  unprivileged_ws st ++
    filter (λ w, flavor w = reference_worker_flavor ∧ privileged w = false)
      (keys ≫= workers_of_flavor setup).
Proof.
  revert st. induction keys as [|fl keys IH]; intros st.
  - simpl. by rewrite app_nil_r.
  - rewrite bind_cons. cbn [foldl]. rewrite IH, !worker_loop_body_unprivileged.
    unfold workers_of_flavor at 2.
    change [new_worker setup fl false; new_worker setup fl true]
      with ([new_worker setup fl false] ++ [new_worker setup fl true]).
    rewrite !filter_app. by rewrite <- !app_assoc.
Qed.

(** The catalog is the two workers of each flavor, flavor after flavor. *)
Lemma catalog_eq : catalog = FLAVORS.*1 ≫= workers_of_flavor setup.
Proof.
  unfold all_clipos_docker_latent_workers, worker_loop.
  by rewrite worker_loop_all_from.
Qed.

(** The list the loop accumulates and the comprehension over the catalog
    pick the same privileged reference workers. *)
Lemma privileged_reference_workers_eq :
  privileged_reference_workers setup FLAVORS =
  filter (λ w, flavor w = reference_worker_flavor ∧ privileged w = true)
    catalog.
Proof.
  rewrite catalog_eq. unfold privileged_reference_workers, worker_loop.
  by rewrite worker_loop_privileged_from.
Qed.

Lemma unprivileged_reference_workers_eq :
  unprivileged_reference_workers setup FLAVORS =
  filter (λ w, flavor w = reference_worker_flavor ∧ privileged w = false)
    catalog.
Proof.
  rewrite catalog_eq. unfold unprivileged_reference_workers, worker_loop.
  by rewrite worker_loop_unprivileged_from.
Qed.

Lemma elem_of_catalog w :
  w ∈ catalog ↔ ∃ fl, fl ∈ FLAVORS.*1 ∧ w = new_worker setup fl (privileged w).
Proof.
  rewrite catalog_eq, list_elem_of_bind. unfold workers_of_flavor. split.
  - intros (fl & Hw & Hfl). exists fl. split; [done|].
    apply elem_of_cons in Hw as [->|Hw]; [done|].
    apply list_elem_of_singleton in Hw as ->. done.
  - intros (fl & Hfl & Hw). exists fl. split; [|done].
    rewrite Hw. destruct (privileged w); set_solver.
Qed.

Lemma catalog_flavor w : w ∈ catalog → flavor w ∈ FLAVORS.*1.
Proof.
  intros (fl & Hfl & ->)%elem_of_catalog. done.
Qed.

Lemma filter_flavor_absent keys fl :
  fl ∉ keys →
  filter (λ w, flavor w = fl) (keys ≫= workers_of_flavor setup) = [].
Proof.
  induction keys as [|k keys IH]; intros Hfl; [done|].
  apply not_elem_of_cons in Hfl as [Hne Hfl].
  rewrite bind_cons, filter_app, IH by done.
  unfold workers_of_flavor. rewrite !filter_cons, filter_nil. simpl.
  rewrite !decide_False by congruence. done.
Qed.

Lemma filter_flavor_present keys fl :
  NoDup keys → fl ∈ keys →
  filter (λ w, flavor w = fl) (keys ≫= workers_of_flavor setup) =
  workers_of_flavor setup fl.
Proof.
  induction 1 as [|k keys Hk Hnd IH]; intros Hfl; [by apply elem_of_nil in Hfl|].
  rewrite bind_cons, filter_app.
  destruct (decide (k = fl)) as [->|Hne].
  - rewrite filter_flavor_absent by done.
    unfold workers_of_flavor. rewrite !filter_cons, filter_nil. simpl.
    rewrite !decide_True by done. done.
  - apply elem_of_cons in Hfl as [->|Hfl]; [done|].
    rewrite IH by done.
    unfold workers_of_flavor at 1. rewrite !filter_cons, filter_nil. simpl.
    rewrite !decide_False by done. done.
Qed.

Lemma identity_in_catalog keys fl p :
  (fl, p) ∈ identity <$> (keys ≫= workers_of_flavor setup) → fl ∈ keys.
Proof.
  intros (w & Hid & Hw)%list_elem_of_fmap.
  apply list_elem_of_bind in Hw as (k & Hw & Hk).
  unfold workers_of_flavor in Hw.
  apply elem_of_cons in Hw as [->|Hw];
    [|apply list_elem_of_singleton in Hw as ->];
    injection Hid as -> _; done.
Qed.

Lemma identity_NoDup keys :
  NoDup keys → NoDup (identity <$> (keys ≫= workers_of_flavor setup)).
Proof.
  induction 1 as [|k keys Hk Hnd IH]; [constructor|].
  rewrite bind_cons, fmap_app. unfold workers_of_flavor at 1. simpl.
  apply NoDup_cons. split.
  - intros [Heq|Hin]%elem_of_cons; [discriminate|].
    by apply identity_in_catalog in Hin.
  - apply NoDup_cons. split; [|done].
    intros Hin. by apply identity_in_catalog in Hin.
Qed.

(** *** The agent-template catalog *)

(** C8: when the keys of [FLAVORS] are pairwise distinct (it is a
    dictionary), the catalog of Docker latent workers holds, for every
    flavor of [FLAVORS] and every privilege level, exactly one worker of
    that identity; the workers of a flavor are exactly two, the unprivileged
    one and the privileged one; every catalog entry belongs to a flavor of
    [FLAVORS]; and no two entries share an identity. *)
Theorem catalog_one_template_per_identity :
  NoDup FLAVORS.*1 →
  (∀ fl p, fl ∈ FLAVORS.*1 →
     filter (λ w, identity w = (fl, p)) catalog = [new_worker setup fl p])
  ∧ (∀ fl, fl ∈ FLAVORS.*1 →
       filter (λ w, flavor w = fl) catalog =
       [new_worker setup fl false; new_worker setup fl true]
       ∧ new_worker setup fl false ≠ new_worker setup fl true)
  ∧ (∀ w, w ∈ catalog → flavor w ∈ FLAVORS.*1)
  ∧ NoDup (identity <$> catalog)
  ∧ length catalog = 2 * length FLAVORS.
Proof.
  intros Hnd. repeat split.
  - intros fl p Hfl.
    rewrite (list_filter_iff _
               (λ w, privileged w = p ∧ flavor w = fl)).
    2:{ intros w. unfold identity. split.
        - intros [= <- <-]. done.
        - intros [<- <-]. done. }
    rewrite <- list_filter_filter, catalog_eq, filter_flavor_present by done.
    unfold workers_of_flavor. rewrite !filter_cons, filter_nil. simpl.
    destruct p; simpl; done.
  - rewrite catalog_eq. by apply filter_flavor_present.
  - discriminate.
  - apply catalog_flavor.
  - rewrite catalog_eq. by apply identity_NoDup.
  - rewrite catalog_eq. clear Hnd.
    induction FLAVORS as [|kv l IH]; [done|].
    rewrite fmap_cons, bind_cons, length_app, IH. simpl. lia.
Qed.

(** *** The builder loops *)

Local Abbreviation image_builders :=
  (docker_buildenv_image_builders setup FLAVORS docker_worker_name).
Local Abbreviation clipos_builders :=
  (clipos_on_all_flavors_builders setup FLAVORS docker_worker_name).
Local Abbreviation repo_sync :=
  (repo_sync_builder setup FLAVORS docker_worker_name).
Local Abbreviation ondemand :=
  (clipos_ondemand_builder setup FLAVORS docker_worker_name).
Local Abbreviation all_builders :=
  (c_builders setup FLAVORS docker_worker_name).
Local Abbreviation builder_for :=
  (clipos_builder setup FLAVORS docker_worker_name).
Local Abbreviation image_builder_for :=
  (docker_image_builder setup docker_worker_name).

Lemma foldl_append_map {A B} (g : A → B) (acc : list B) (l : list A) :
  foldl (λ acc x, acc ++ [g x]) acc l = acc ++ (g <$> l).
Proof.
  revert acc. induction l as [|x l IH]; intros acc; simpl.
  - by rewrite app_nil_r.
  - by rewrite IH, <- app_assoc.
Qed.

Lemma image_builders_eq : image_builders = image_builder_for <$> FLAVORS.*1.
Proof.
  unfold docker_buildenv_image_builders.
  rewrite (foldl_append_map (λ item, image_builder_for item.1)).
  by rewrite <- list_fmap_compose.
Qed.

Lemma builder_loop_on_all st keys :
  on_all_flavors
    (foldl (builder_loop_body setup FLAVORS docker_worker_name) st keys) =
  on_all_flavors st ++ (builder_for <$> keys).
Proof.
  revert st. induction keys as [|fl keys IH]; intros st.
  - simpl. by rewrite app_nil_r.
  - cbn [foldl]. rewrite IH. cbn [builder_loop_body on_all_flavors].
    by rewrite <- app_assoc.
Qed.

Lemma builder_loop_reference st keys :
  reference_builder
    (foldl (builder_loop_body setup FLAVORS docker_worker_name) st keys) =
  if decide (reference_worker_flavor ∈ keys)
  then Some (builder_for reference_worker_flavor)
  else reference_builder st.
Proof.
  revert st. induction keys as [|fl keys IH]; intros st; cbn [foldl].
  - case_decide as Hin; [by apply elem_of_nil in Hin | done].
  - rewrite IH. cbn [builder_loop_body reference_builder].
    destruct (decide (reference_worker_flavor ∈ keys)) as [Hin|Hin].
    + rewrite decide_True; [done | by right].
    + destruct (decide (fl = reference_worker_flavor)) as [->|Hne].
      * rewrite decide_True; [done | by left].
      * rewrite decide_False; [done|].
        intros [?|?]%elem_of_cons; congruence.
Qed.

Lemma clipos_builders_eq : clipos_builders = builder_for <$> FLAVORS.*1.
Proof.
  unfold clipos_on_all_flavors_builders, builder_loop.
  by rewrite builder_loop_on_all.
Qed.

Lemma reference_clipos_builder_eq :
  reference_clipos_builder setup FLAVORS docker_worker_name =
  if decide (reference_worker_flavor ∈ FLAVORS.*1)
  then Some (builder_for reference_worker_flavor)
  else None.
Proof.
  unfold reference_clipos_builder, builder_loop.
  by rewrite builder_loop_reference.
Qed.

(** *** Builder names *)

Lemma string_app_inj (pre a b : string) : pre +:+ a = pre +:+ b → a = b.
Proof.
  induction pre as [|c pre IH]; simpl; [done|]. intros [= H]. auto.
Qed.

Lemma builder_name_reference : builder_name reference_worker_flavor = "clipos".
Proof. reflexivity. Qed.

Lemma builder_name_other fl :
  fl ≠ reference_worker_flavor → builder_name fl = "clipos env:" +:+ fl.
Proof. intros Hne. unfold builder_name. by rewrite decide_True. Qed.

Lemma builder_name_plain fl :
  builder_name fl = "clipos" → fl = reference_worker_flavor.
Proof.
  unfold builder_name. case_decide as Hne; [discriminate|].
  intros _. destruct (decide (fl = reference_worker_flavor)); [done|].
  by destruct Hne.
Qed.

#[local] Instance builder_name_inj : Inj (=) (=) builder_name.
Proof.
  intros a b Hab.
  destruct (decide (a = reference_worker_flavor)) as [->|Ha].
  - symmetry. by apply builder_name_plain.
  - destruct (decide (b = reference_worker_flavor)) as [->|Hb].
    + by apply builder_name_plain.
    + rewrite !builder_name_other in Hab by done.
      by apply string_app_inj in Hab.
Qed.

#[local] Instance image_builder_name_inj :
  Inj (=) (=) (λ fl, "docker-worker-image env:" +:+ fl).
Proof. intros a b Hab. by apply string_app_inj in Hab. Qed.

Lemma all_builders_names :
  bc_name <$> all_builders =
  ((λ fl, "docker-worker-image env:" +:+ fl) <$> FLAVORS.*1)
  ++ ["repo-sync"] ++ (builder_name <$> FLAVORS.*1) ++ ["clipos ondemand"].
Proof.
  unfold c_builders. rewrite !fmap_app, image_builders_eq, clipos_builders_eq.
  by rewrite <- !list_fmap_compose.
Qed.

Lemma builder_name_not_ondemand fl : builder_name fl ≠ "clipos ondemand".
Proof. unfold builder_name. case_decide; discriminate. Qed.

Lemma builder_name_not_repo_sync fl : builder_name fl ≠ "repo-sync".
Proof. unfold builder_name. case_decide; discriminate. Qed.

Lemma builder_name_not_image fl fl' :
  builder_name fl ≠ "docker-worker-image env:" +:+ fl'.
Proof. unfold builder_name. case_decide; discriminate. Qed.

Lemma all_builders_names_NoDup :
  NoDup FLAVORS.*1 → NoDup (bc_name <$> all_builders).
Proof.
  intros Hnd. rewrite all_builders_names.
  apply NoDup_app. split; [by apply (NoDup_fmap_2 _)|]. split.
  - intros n (fl & -> & _)%list_elem_of_fmap Hin.
    apply elem_of_cons in Hin as [Hin|Hin]; [discriminate|].
    apply elem_of_app in Hin as [Hin|Hin].
    + apply list_elem_of_fmap in Hin as (fl' & Heq & _).
      symmetry in Heq. by apply builder_name_not_image in Heq.
    + apply list_elem_of_singleton in Hin. discriminate.
  - apply NoDup_cons. split.
    + intros [Hin|Hin]%elem_of_app.
      * apply list_elem_of_fmap in Hin as (fl & Heq & _).
        symmetry in Heq. by apply builder_name_not_repo_sync in Heq.
      * apply list_elem_of_singleton in Hin. discriminate.
    + apply NoDup_app. split; [by apply (NoDup_fmap_2 _)|]. split.
      * intros n (fl & -> & _)%list_elem_of_fmap Hin.
        apply list_elem_of_singleton in Hin.
        by apply builder_name_not_ondemand in Hin.
      * apply NoDup_singleton.
Qed.

Lemma filter_fmap_all {A B} (P : B → Prop) `{∀ y, Decision (P y)}
    (f : A → B) (l : list A) :
  (∀ x, P (f x)) → filter P (f <$> l) = f <$> l.
Proof.
  intros HP. induction l as [|x l IH]; [done|].
  rewrite fmap_cons, filter_cons_True by done. by rewrite IH.
Qed.

Lemma filter_fmap_none {A B} (P : B → Prop) `{∀ y, Decision (P y)}
    (f : A → B) (l : list A) :
  (∀ x, ¬ P (f x)) → filter P (f <$> l) = [].
Proof.
  intros HP. induction l as [|x l IH]; [done|].
  by rewrite fmap_cons, filter_cons_False.
Qed.

Lemma elem_of_all_builders b :
  b ∈ all_builders ↔
  (∃ fl, fl ∈ FLAVORS.*1 ∧ b = image_builder_for fl)
  ∨ b = repo_sync
  ∨ (∃ fl, fl ∈ FLAVORS.*1 ∧ b = builder_for fl)
  ∨ b = ondemand.
Proof.
  unfold c_builders.
  rewrite !elem_of_app, !list_elem_of_singleton, image_builders_eq,
    clipos_builders_eq, !list_elem_of_fmap.
  naive_solver.
Qed.

(** C10: when the keys of [FLAVORS] are pairwise distinct, the names of the
    registered builders are pairwise distinct; the name of an image builder
    is ["docker-worker-image env:"] followed by its flavor; the clipos
    builder of a flavor other than the reference flavor is named
    ["clipos env:"] followed by the flavor; the builder of the reference
    flavor is named ["clipos"] and is the only registered builder of that
    name; the two remaining builders are ["repo-sync"] and
    ["clipos ondemand"]. *)
Theorem builder_names_pairwise_distinct :
  NoDup FLAVORS.*1 →
  NoDup (bc_name <$> all_builders)
  ∧ bc_name <$> image_builders =
      (λ fl, "docker-worker-image env:" +:+ fl) <$> FLAVORS.*1
  ∧ clipos_builders = builder_for <$> FLAVORS.*1
  ∧ (∀ fl, fl ≠ reference_worker_flavor →
       bc_name (builder_for fl) = "clipos env:" +:+ fl)
  ∧ bc_name (builder_for reference_worker_flavor) = "clipos"
  ∧ (∀ b, b ∈ all_builders → bc_name b = "clipos" →
       b = builder_for reference_worker_flavor)
  ∧ bc_name repo_sync = "repo-sync"
  ∧ bc_name ondemand = "clipos ondemand".
Proof.
  intros Hnd. split; [by apply all_builders_names_NoDup|].
  split; [by rewrite image_builders_eq, <- list_fmap_compose|].
  split; [apply clipos_builders_eq|].
  split; [intros fl Hne; by apply builder_name_other|].
  split; [reflexivity|].
  split; [|done].
  intros b Hb Hname.
  apply elem_of_all_builders in Hb
    as [(fl & _ & ->) | [-> | [(fl & _ & ->) | ->]]]; try discriminate.
  by apply builder_name_plain in Hname as ->.
Qed.

(** *** Docker socket access *)

(** C9: every registered builder whose factory builds a Docker image is tied
    to the one worker name ["_docker-client-localworker"]; these builders
    are exactly the image builders, one per flavor; and the registered
    workers hold exactly one local worker, the one of that name. *)
Theorem docker_access_confined_to_local_worker :
  (∀ b, b ∈ all_builders →
     is_docker_image_factory (bc_factory b) →
     bc_workernames b = ["_docker-client-localworker"])
  ∧ filter (λ b, is_docker_image_factory (bc_factory b)) all_builders =
      image_builder_for <$> FLAVORS.*1
  ∧ filter is_local (c_workers setup FLAVORS) =
      [LocalWorker "_docker-client-localworker"].
Proof.
  split; [|split].
  - intros b Hb Hf.
    apply elem_of_all_builders in Hb
      as [(fl & _ & ->) | [-> | [(fl & _ & ->) | ->]]]; done.
  - unfold c_builders.
    rewrite !filter_app, image_builders_eq, clipos_builders_eq.
    rewrite filter_fmap_all by done.
    rewrite (filter_fmap_none _ builder_for) by (intros fl; exact id).
    rewrite !filter_cons_False by exact id. by rewrite filter_nil, !app_nil_r.
  - unfold c_workers. rewrite filter_cons_True by done.
    by rewrite filter_fmap_none by (intros w; exact id).
Qed.

(** *** Builders and the workers they are tied to *)

Local Abbreviation registered_workers := (c_workers setup FLAVORS).
Local Abbreviation names_distinct :=
  (NoDup (worker_name docker_worker_name <$> registered_workers)).
Local Abbreviation tied := (tied_workers docker_worker_name catalog).

Lemma NoDup_fmap_inj_on {A B} (f : A → B) (l : list A) x y :
  NoDup (f <$> l) → x ∈ l → y ∈ l → f x = f y → x = y.
Proof.
  induction l as [|a l IH]; intros Hnd Hx Hy Hxy;
    [by apply elem_of_nil in Hx|].
  rewrite fmap_cons in Hnd. apply NoDup_cons in Hnd as [Ha Hnd].
  apply elem_of_cons in Hx as [->|Hx]; apply elem_of_cons in Hy as [->|Hy].
  - done.
  - destruct Ha. rewrite Hxy. by apply list_elem_of_fmap_2.
  - destruct Ha. rewrite <- Hxy. by apply list_elem_of_fmap_2.
  - by apply IH.
Qed.

Lemma registered_names :
  worker_name docker_worker_name <$> registered_workers =
  "_docker-client-localworker" :: (docker_worker_name <$> catalog).
Proof.
  unfold c_workers. rewrite fmap_cons, <- list_fmap_compose. done.
Qed.

Lemma catalog_names_NoDup :
  names_distinct → NoDup (docker_worker_name <$> catalog).
Proof. rewrite registered_names. by intros [_ ?]%NoDup_cons. Qed.

Lemma catalog_name_not_local w :
  names_distinct → w ∈ catalog →
  docker_worker_name w ≠ "_docker-client-localworker".
Proof.
  rewrite registered_names. intros [Hl _]%NoDup_cons Hw Heq.
  destruct Hl. rewrite <- Heq. by apply list_elem_of_fmap_2.
Qed.

(** A builder whose [workernames] is a comprehension over the catalog is
    tied to the workers the comprehension selects, and to no other. *)
Lemma tied_comprehension (P : DockerLatentWorker → Prop)
    `{∀ w, Decision (P w)} (b : BuilderConfig) w :
  names_distinct →
  bc_workernames b = docker_worker_name <$> filter P catalog →
  w ∈ tied b ↔ w ∈ catalog ∧ P w.
Proof.
  intros Hnd Hb. unfold tied_workers. rewrite list_elem_of_filter, Hb.
  split.
  - intros [Hname Hw]. split; [done|].
    apply list_elem_of_fmap in Hname as (w' & Heq & Hw').
    apply list_elem_of_filter in Hw' as [HP Hw'].
    assert (w = w') as ->; [|done].
    eapply NoDup_fmap_inj_on; eauto using catalog_names_NoDup.
  - intros [Hw HP]. split; [|done].
    apply list_elem_of_fmap_2. by apply list_elem_of_filter.
Qed.

Lemma tied_repo_sync w :
  names_distinct →
  w ∈ tied repo_sync ↔
  w ∈ catalog ∧ flavor w = reference_worker_flavor ∧ privileged w = false.
Proof.
  intros Hnd.
  by apply (tied_comprehension
              (λ w, flavor w = reference_worker_flavor ∧ privileged w = false)).
Qed.

Lemma tied_builder_for fl w :
  names_distinct →
  w ∈ tied (builder_for fl) ↔
  w ∈ catalog ∧ flavor w = fl ∧ privileged w = true.
Proof.
  intros Hnd.
  by apply (tied_comprehension (λ w, flavor w = fl ∧ privileged w = true)).
Qed.

Lemma tied_ondemand w :
  names_distinct →
  w ∈ tied ondemand ↔
  w ∈ catalog ∧ flavor w = reference_worker_flavor ∧ privileged w = true.
Proof.
  intros Hnd.
  apply (tied_comprehension
           (λ w, flavor w = reference_worker_flavor ∧ privileged w = true));
    [done|].
  simpl. by rewrite privileged_reference_workers_eq.
Qed.

Lemma tied_image_builder fl w :
  names_distinct → w ∉ tied (image_builder_for fl).
Proof.
  intros Hnd [Hname Hw]%list_elem_of_filter.
  apply list_elem_of_singleton in Hname.
  by eapply catalog_name_not_local.
Qed.

Lemma new_worker_in_catalog fl p :
  fl ∈ FLAVORS.*1 → new_worker setup fl p ∈ catalog.
Proof. intros Hfl. apply elem_of_catalog. by exists fl. Qed.


(** *** Key shapes *)

Lemma string_length_app (a b : string) :
  String.length (a +:+ b) = String.length a + String.length b.
Proof. induction a as [|c a IH]; simpl; [done|]. by rewrite IH. Qed.

Lemma string_app_inj_r (a b suf : string) : a +:+ suf = b +:+ suf → a = b.
Proof.
  revert b. induction a as [|c a IH]; intros [|d b] Heq; simpl in Heq.
  - done.
  - apply (f_equal String.length) in Heq. simpl in Heq.
    change ("" +:+ suf) with suf in Heq.
    rewrite (string_length_app b suf) in Heq. lia.
  - apply (f_equal String.length) in Heq. simpl in Heq.
    change ("" +:+ suf) with suf in Heq.
    rewrite (string_length_app a suf) in Heq. lia.
  - injection Heq as -> Heq. f_equal. by apply IH.
Qed.

Lemma strip_prefix_spec (pre s rest : string) :
  strip_prefix pre s = Some rest ↔ s = pre +:+ rest.
Proof.
  revert s. induction pre as [|a pre IH]; intros s; simpl.
  - split; [by intros [= ->] | by intros ->].
  - destruct s as [|b s]; [split; discriminate|].
    case_decide as Hab.
    + subst b. rewrite IH. split; [by intros -> | by intros [= ->]].
    + split; [discriminate | intros [= ? ?]; done].
Qed.

Lemma ends_with_spec (suf s : string) :
  ends_with suf s ↔ ∃ kind, s = kind +:+ suf.
Proof.
  induction s as [|c s IH]; simpl.
  - rewrite orb_false_r, bool_decide_spec. split.
    + intros <-. by exists "".
    + intros ([|d k] & Hk); [done | discriminate].
  - rewrite orb_True, bool_decide_spec, IH. split.
    + intros [<- | (k & ->)]; [by exists "" | by exists (String c k)].
    + intros ([|d k] & Hk); [by left|].
      injection Hk as -> ->. right. by exists k.
Qed.

(** [has_shape pre suf key] decides that [key] is [pre], some kind, [suf]. *)
Lemma has_shape_spec (pre suf key : string) :
  has_shape pre suf key ↔ ∃ kind, key = pre +:+ kind +:+ suf.
Proof.
  unfold has_shape. destruct (strip_prefix pre key) as [rest|] eqn:Hrest.
  - apply strip_prefix_spec in Hrest as ->. rewrite ends_with_spec.
    split; intros (k & Hk); exists k.
    + by rewrite Hk.
    + by apply string_app_inj in Hk.
  - split; [done|]. intros (k & ->).
    assert (strip_prefix pre (pre +:+ k +:+ suf) = Some (k +:+ suf)) as Hs
      by by apply strip_prefix_spec.
    congruence.
Qed.

(** *** Dictionary displays *)

Lemma dict_from_lookup_Some {V} (items : list (string * V))
    (m : gmap string V) k v :
  foldl (λ m item, <[item.1 := item.2]> m) m items !! k = Some v →
  (k, v) ∈ items ∨ m !! k = Some v.
Proof.
  revert m. induction items as [|[k' v'] items IH]; intros m Hk; simpl in Hk.
  - by right.
  - apply IH in Hk as [Hk|Hk]; [left; by right|].
    apply lookup_insert_Some in Hk as [[<- <-]|[_ Hk]]; [left; by left|].
    by right.
Qed.

Lemma dict_lookup_Some {V} (items : list (string * V)) k v :
  dict items !! k = Some v → (k, v) ∈ items.
Proof.
  intros [Hk|Hk]%dict_from_lookup_Some; [done|].
  by rewrite lookup_empty in Hk.
Qed.

Lemma dict_from_lookup_is_Some {V} (items : list (string * V))
    (m : gmap string V) k :
  k ∈ items.*1 ∨ is_Some (m !! k) →
  is_Some (foldl (λ m item, <[item.1 := item.2]> m) m items !! k).
Proof.
  revert m. induction items as [|[k' v'] items IH]; intros m Hk; simpl.
  - destruct Hk as [Hk|Hk]; [by apply elem_of_nil in Hk | done].
  - apply IH. destruct Hk as [Hk|Hk].
    + apply elem_of_cons in Hk as [->|Hk]; [right | by left].
      simpl. rewrite lookup_insert_eq. by eexists.
    + right. simpl. by apply lookup_insert_is_Some'; right.
Qed.

Lemma dict_lookup_is_Some {V} (items : list (string * V)) k :
  k ∈ items.*1 → is_Some (dict items !! k).
Proof. intros Hk. apply dict_from_lookup_is_Some. by left. Qed.

Lemma dict_lookup_item {V} (items : list (string * V)) k v :
  NoDup items.*1 → (k, v) ∈ items → dict items !! k = Some v.
Proof.
  intros Hnd Hin.
  destruct (dict_lookup_is_Some items k) as [v' Hv'];
    [by apply (list_elem_of_fmap_2 fst) in Hin|].
  rewrite Hv'. f_equal.
  apply dict_lookup_Some in Hv'.
  by assert ((k, v') = (k, v)) as [= ->]
    by (eapply (NoDup_fmap_inj_on fst); eauto).
Qed.

(** Setting one more key is storing one more item. *)
Lemma dict_snoc {V} (items : list (string * V)) k v :
  <[k := v]> (dict items) = dict (items ++ [(k, v)]).
Proof. unfold dict. by rewrite foldl_app. Qed.

(** The properties of a periodic scheduler built on a dictionary display:
    the items of the display, then the [scheduler] item. *)
Lemma sched_properties_Nightly n bs d h m cbs items :
  sched_properties (Nightly n bs d h m cbs (dict items)) =
  dict (items ++ [("scheduler", VStr n)]).
Proof. apply dict_snoc. Qed.

Lemma sched_properties_scheduler s :
  sched_properties s !! "scheduler" = Some (VStr (sched_name s)).
Proof. apply lookup_insert_eq. Qed.

Lemma sched_properties_ForceScheduler n bs cbs ps key :
  is_Some (sched_properties (ForceScheduler n bs cbs ps) !! key) ↔
  key = "scheduler".
Proof.
  unfold sched_properties. rewrite lookup_insert_is_Some, lookup_empty.
  split; [intros [->|[_ []%is_Some_None]]; done | by left].
Qed.

Ltac dict_value :=
  apply dict_lookup_item;
  [apply (bool_decide_unpack _); by vm_compute | set_solver].

(** *** The configuration and its schedulers *)

Local Abbreviation master :=
  (BuildmasterConfig setup FLAVORS docker_worker_name local_manifest_example).
Local Abbreviation rb := (builder_for reference_worker_flavor).
Local Abbreviation scheds :=
  (c_schedulers setup FLAVORS docker_worker_name local_manifest_example rb).
Local Abbreviation intraday :=
  (clipos_incremental_build_intraday_sched setup FLAVORS docker_worker_name rb).
Local Abbreviation nightly :=
  (clipos_build_nightly_sched setup FLAVORS docker_worker_name rb).
Local Abbreviation weekly :=
  (clipos_build_weekly_sched setup FLAVORS docker_worker_name).
Local Abbreviation sync_nightly :=
  (repo_sync_nightly_sched setup FLAVORS docker_worker_name).
Local Abbreviation image_weekly :=
  (docker_buildenv_image_rebuild_weekly_sched setup FLAVORS docker_worker_name).
Local Abbreviation sync_force :=
  (repo_sync_force_sched setup FLAVORS docker_worker_name).
Local Abbreviation image_force :=
  (docker_buildenv_image_rebuild_force_sched setup FLAVORS docker_worker_name).
Local Abbreviation custom :=
  (clipos_custom_build_force_sched setup FLAVORS docker_worker_name
     local_manifest_example rb).

(** The module loads exactly when the reference flavor is a key of
    [FLAVORS]; [reference_clipos_builder] is then the builder of that
    flavor. *)
Lemma master_Some c :
  master = Some c ↔
  reference_worker_flavor ∈ FLAVORS.*1
  ∧ c = {| workers := registered_workers;
           builders := all_builders;
           schedulers := scheds |}.
Proof.
  unfold BuildmasterConfig. rewrite reference_clipos_builder_eq.
  case_decide as Href; simpl.
  - split; [by intros [= <-] | by intros [_ ->]].
  - split; [discriminate | by intros [? _]].
Qed.

Lemma master_loads :
  reference_worker_flavor ∈ FLAVORS.*1 → is_Some master.
Proof. intros Href. eexists. by apply master_Some. Qed.

Lemma master_fails :
  reference_worker_flavor ∉ FLAVORS.*1 → master = None.
Proof.
  intros Href. destruct master as [c|] eqn:Hc; [|done].
  by apply master_Some in Hc as [? _].
Qed.

Lemma elem_of_scheds s :
  s ∈ scheds ↔
  s = intraday ∨ s = sync_nightly ∨ s = nightly ∨ s = weekly
  ∨ s = image_weekly ∨ s = sync_force ∨ s = image_force ∨ s = custom.
Proof.
  unfold c_schedulers. rewrite !elem_of_cons, elem_of_nil. naive_solver.
Qed.

Lemma sched_properties_image_weekly :
  sched_properties image_weekly =
  dict [("scheduler", VStr "docker-workers-weekly-rebuild")].
Proof. reflexivity. Qed.

(** Writes the properties of a periodic scheduler of the module, in a
    hypothesis, as one dictionary display. *)
Ltac periodic_items H :=
  first [ rewrite sched_properties_image_weekly in H
        | try unfold clipos_incremental_build_intraday_sched in H;
          try unfold clipos_build_nightly_sched in H;
          try unfold clipos_build_weekly_sched in H;
          try unfold repo_sync_nightly_sched in H;
          rewrite sched_properties_Nightly in H; cbn [app] in H ].

Lemma periodic_value_Nightly n bs d h m cbs items key :
  periodic_value (Nightly n bs d h m cbs (dict items)) key =
  dict (items ++ [("scheduler", VStr n)]) !! key.
Proof.
  change (periodic_value (Nightly n bs d h m cbs (dict items)) key)
    with (sched_properties (Nightly n bs d h m cbs (dict items)) !! key).
  by rewrite sched_properties_Nightly.
Qed.

(** Settles a goal that gives the value a periodic scheduler of the module
    fixes for a key. *)
Ltac periodic_dict_value :=
  try unfold clipos_incremental_build_intraday_sched;
  try unfold clipos_build_nightly_sched;
  try unfold clipos_build_weekly_sched;
  try unfold repo_sync_nightly_sched;
  rewrite periodic_value_Nightly; cbn [app]; dict_value.

Lemma key_kind_inj (pre suf kind kind' : string) :
  pre +:+ kind +:+ suf = pre +:+ kind' +:+ suf → kind = kind'.
Proof. intros H%string_app_inj. by apply string_app_inj_r in H. Qed.

(** Settles an equation between a key of a kind and a key of the module:
    either the two differ, or the kind is one of the module's. *)
Ltac key_equation pre suf kind H :=
  first
    [ discriminate H
    | apply (key_kind_inj pre suf kind "repo_quicksync") in H
    | apply (key_kind_inj pre suf kind "sdks") in H
    | apply (key_kind_inj pre suf kind "cache") in H
    | apply (key_kind_inj pre suf kind "build") in H ].

Ltac item_cases H :=
  repeat (apply elem_of_cons in H as [H|H]);
  [..| by apply elem_of_nil in H].

(** *** Periodic property sets *)

(** C5: in the loaded configuration, no periodic scheduler's fixed property
    set holds both [produce_<kind>_artifacts] and [reuse_<kind>_artifacts]
    at [True], for any kind. *)
Theorem periodic_never_produce_and_reuse c :
  master = Some c →
  ∀ s props kind,
    s ∈ schedulers c → periodic_properties s = Some props →
    ¬ (props !! produce_key kind = Some (VBool true)
       ∧ props !! reuse_key kind = Some (VBool true)).
Proof.
  intros [_ ->]%master_Some s props kind Hs Hp [Hprod Hreuse].
  cbn [schedulers] in Hs.
  apply elem_of_scheds in Hs as [->|[->|[->|[->|[->|[->|[->| ->]]]]]]];
    try discriminate Hp; injection Hp as <-;
    periodic_items Hprod; periodic_items Hreuse;
    apply dict_lookup_Some in Hprod; apply dict_lookup_Some in Hreuse;
    item_cases Hprod; apply pair_equal_spec in Hprod as [Hk Hv];
    try discriminate Hv;
    key_equation "produce_" "_artifacts" kind Hk; subst kind;
    item_cases Hreuse; discriminate Hreuse.
Qed.

(** *** The keys of each scheduler *)

Lemma dict_has_key {V} (items : list (string * V)) k :
  is_Some (dict items !! k) ↔ k ∈ items.*1.
Proof.
  split; [|apply dict_lookup_is_Some].
  intros [v Hv]. apply dict_lookup_Some in Hv.
  by apply (list_elem_of_fmap_2 fst) in Hv.
Qed.

Lemma has_key_Nightly n bs d h m cbs items key :
  has_key (Nightly n bs d h m cbs (dict items)) key ↔
  key ∈ items.*1 ++ ["scheduler"].
Proof.
  unfold has_key. rewrite sched_properties_Nightly, dict_has_key, fmap_app.
  change (force_keys (Nightly n bs d h m cbs (dict items))) with (@nil string).
  rewrite elem_of_nil. cbn [fmap list_fmap fst]. tauto.
Qed.

Lemma has_key_ForceScheduler n bs cbs ps key :
  has_key (ForceScheduler n bs cbs ps) key ↔
  key = "scheduler" ∨ key ∈ force_keys (ForceScheduler n bs cbs ps).
Proof. unfold has_key. by rewrite sched_properties_ForceScheduler. Qed.

Lemma has_key_intraday key :
  has_key intraday key ↔
  key ∈ [ "cleanup_workspace"; "force_repo_quicksync_artifacts_download";
          "buildername_providing_repo_quicksync_artifacts";
          "produce_sdks_artifacts"; "reuse_sdks_artifacts";
          "buildername_providing_sdks_artifacts";
          "produce_cache_artifacts"; "reuse_cache_artifacts";
          "buildername_providing_cache_artifacts";
          "produce_build_artifacts"; "scheduler" ].
Proof. apply has_key_Nightly. Qed.

Lemma has_key_nightly_or_weekly s key :
  s = nightly ∨ s = weekly →
  has_key s key ↔
  key ∈ [ "cleanup_workspace"; "force_repo_quicksync_artifacts_download";
          "buildername_providing_repo_quicksync_artifacts";
          "produce_sdks_artifacts"; "reuse_sdks_artifacts";
          "produce_cache_artifacts"; "reuse_cache_artifacts";
          "produce_build_artifacts"; "scheduler" ].
Proof. intros [->| ->]; apply has_key_Nightly. Qed.

Lemma has_key_sync_nightly key :
  has_key sync_nightly key ↔ key ∈ ["cleanup_workspace"; "scheduler"].
Proof. apply has_key_Nightly. Qed.

Lemma has_key_image_weekly key :
  has_key image_weekly key ↔ key ∈ ["scheduler"].
Proof. apply (has_key_Nightly _ _ _ _ _ _ []). Qed.

Lemma force_leaves_custom :
  force_leaves custom =
  [ ("username", default_username);
    ("reason", default_reason);
    ("buildername_providing_repo_quicksync_artifacts",
      FixedParameter "buildername_providing_repo_quicksync_artifacts"
        (VStr (bc_name repo_sync)));
    ("use_local_manifest", BooleanParameter "use_local_manifest" false);
    ("local_manifest_xml",
      TextParameter "local_manifest_xml" local_manifest_example);
    ("cleanup_workspace", BooleanParameter "cleanup_workspace" true);
    ("force_repo_quicksync_artifacts_download",
      BooleanParameter "force_repo_quicksync_artifacts_download" false);
    ("produce_sdks_artifacts",
      BooleanParameter "produce_sdks_artifacts" false);
    ("reuse_sdks_artifacts", BooleanParameter "reuse_sdks_artifacts" true);
    ("buildername_providing_sdks_artifacts",
      ChoiceStringParameter "buildername_providing_sdks_artifacts"
        (bc_name <$> clipos_builders) (bc_name rb));
    ("produce_cache_artifacts",
      BooleanParameter "produce_cache_artifacts" false);
    ("reuse_cache_artifacts", BooleanParameter "reuse_cache_artifacts" true);
    ("buildername_providing_cache_artifacts",
      ChoiceStringParameter "buildername_providing_cache_artifacts"
        (bc_name <$> clipos_builders) (bc_name rb));
    ("produce_build_artifacts",
      BooleanParameter "produce_build_artifacts" false) ].
Proof. reflexivity. Qed.

Lemma force_leaves_sync_force :
  force_leaves sync_force =
  [ ("username", default_username);
    ("reason", default_reason);
    ("cleanup_workspace", FixedParameter "cleanup_workspace" (VBool true)) ].
Proof. reflexivity. Qed.

Lemma force_leaves_image_force :
  force_leaves image_force =
  [("username", default_username); ("reason", default_reason)].
Proof. reflexivity. Qed.

Lemma force_leaves_periodic s :
  s = intraday ∨ s = sync_nightly ∨ s = nightly ∨ s = weekly
  ∨ s = image_weekly →
  force_leaves s = [].
Proof. intros [->|[->|[->|[->| ->]]]]; reflexivity. Qed.

Lemma force_keys_custom :
  force_keys custom =
  [ "username"; "reason";
    "buildername_providing_repo_quicksync_artifacts";
    "use_local_manifest"; "local_manifest_xml";
    "cleanup_workspace"; "force_repo_quicksync_artifacts_download";
    "produce_sdks_artifacts"; "reuse_sdks_artifacts";
    "buildername_providing_sdks_artifacts";
    "produce_cache_artifacts"; "reuse_cache_artifacts";
    "buildername_providing_cache_artifacts";
    "produce_build_artifacts" ].
Proof. reflexivity. Qed.

(** The leaves of the forced schedulers of the configuration. *)
Lemma force_leaves_scheds s item :
  s ∈ scheds → item ∈ force_leaves s →
  (s = custom ∧ item ∈ force_leaves custom)
  ∨ (s = sync_force ∧ item ∈ force_leaves sync_force)
  ∨ (s = image_force ∧ item ∈ force_leaves image_force).
Proof.
  intros Hs Hitem.
  apply elem_of_scheds in Hs as [->|[->|[->|[->|[->|[->|[->| ->]]]]]]];
    try (by apply elem_of_nil in Hitem); auto.
Qed.

Ltac sched_cases Hs :=
  apply elem_of_scheds in Hs as [->|[->|[->|[->|[->|[->|[->| ->]]]]]]].

(** The forced schedulers are the schedulers without a fixed property
    set. *)
Lemma forced_scheds s :
  s ∈ scheds → periodic_properties s = None →
  s = sync_force ∨ s = image_force ∨ s = custom.
Proof. intros Hs Hp. sched_cases Hs; try discriminate Hp; auto. Qed.

(** The keys of any scheduler of the configuration. *)
Lemma has_key_scheds s key :
  s ∈ scheds → has_key s key →
  key ∈ [ "cleanup_workspace"; "force_repo_quicksync_artifacts_download";
          "buildername_providing_repo_quicksync_artifacts";
          "produce_sdks_artifacts"; "reuse_sdks_artifacts";
          "buildername_providing_sdks_artifacts";
          "produce_cache_artifacts"; "reuse_cache_artifacts";
          "buildername_providing_cache_artifacts";
          "produce_build_artifacts";
          "use_local_manifest"; "local_manifest_xml";
          "scheduler"; "username"; "reason" ].
Proof.
  intros Hs Hkey. sched_cases Hs.
  - apply has_key_intraday in Hkey. item_cases Hkey; subst key;
      set_solver.
  - apply has_key_sync_nightly in Hkey. item_cases Hkey; subst key;
      set_solver.
  - apply (has_key_nightly_or_weekly nightly) in Hkey; [|by left].
    item_cases Hkey; subst key; set_solver.
  - apply (has_key_nightly_or_weekly weekly) in Hkey; [|by right].
    item_cases Hkey; subst key; set_solver.
  - apply has_key_image_weekly in Hkey. item_cases Hkey; subst key;
      set_solver.
  - apply has_key_ForceScheduler in Hkey as [->|Hkey]; [set_solver|].
    change (key ∈ (force_leaves sync_force).*1) in Hkey.
    rewrite force_leaves_sync_force in Hkey. cbn in Hkey.
    item_cases Hkey; subst key; set_solver.
  - apply has_key_ForceScheduler in Hkey as [->|Hkey]; [set_solver|].
    change (key ∈ (force_leaves image_force).*1) in Hkey.
    rewrite force_leaves_image_force in Hkey. cbn in Hkey.
    item_cases Hkey; subst key; set_solver.
  - apply has_key_ForceScheduler in Hkey as [->|Hkey]; [set_solver|].
    change (key ∈ force_keys custom) in Hkey.
    rewrite force_keys_custom in Hkey. item_cases Hkey; subst key;
      set_solver.
Qed.

(** *** The forced trigger surface *)

(** C2, as the module has it: in the loaded configuration every parameter
    key of a forced scheduler is a recognized key, or one of
    [use_local_manifest] and [local_manifest_xml], or one of [username] and
    [reason]; none of these four is recognized.  Every forced scheduler
    takes [username] and [reason], the parameters Buildbot gives a
    [ForceScheduler] that is built without them.  The custom build takes
    the fourteen keys listed, the forced source-tree synchronization takes
    [username], [reason] and [cleanup_workspace], and the forced image
    rebuild takes [username] and [reason] only.  Beside these parameter
    keys, the custom build lets its caller edit the [repository] and the
    [branch] of its codebase, two keys that are not recognized either; no
    other scheduler has a codebase field its caller may edit. *)
Theorem forced_keys_recognized_manifest_or_form c :
  master = Some c →
  (∀ s key, s ∈ schedulers c → key ∈ force_keys s →
     recognized_key key
     ∨ key = "use_local_manifest" ∨ key = "local_manifest_xml"
     ∨ key = "username" ∨ key = "reason")
  ∧ ¬ recognized_key "use_local_manifest"
  ∧ ¬ recognized_key "local_manifest_xml"
  ∧ ¬ recognized_key "username"
  ∧ ¬ recognized_key "reason"
  ∧ (∀ s, s ∈ schedulers c → periodic_properties s = None →
       ("username", default_username) ∈ force_leaves s
       ∧ ("reason", default_reason) ∈ force_leaves s)
  ∧ (custom ∈ schedulers c ∧
     force_keys custom =
     [ "username"; "reason";
       "buildername_providing_repo_quicksync_artifacts";
       "use_local_manifest"; "local_manifest_xml";
       "cleanup_workspace"; "force_repo_quicksync_artifacts_download";
       "produce_sdks_artifacts"; "reuse_sdks_artifacts";
       "buildername_providing_sdks_artifacts";
       "produce_cache_artifacts"; "reuse_cache_artifacts";
       "buildername_providing_cache_artifacts";
       "produce_build_artifacts" ])
  ∧ (sync_force ∈ schedulers c
     ∧ force_keys sync_force = ["username"; "reason"; "cleanup_workspace"])
  ∧ (image_force ∈ schedulers c
     ∧ force_keys image_force = ["username"; "reason"])
  ∧ (codebase_keys custom = ["repository"; "branch"]
     ∧ codebase_keys sync_force = []
     ∧ codebase_keys image_force = [])
  ∧ (∀ s key, s ∈ schedulers c → key ∈ codebase_keys s →
       s = custom ∧ (key = "repository" ∨ key = "branch"))
  ∧ ¬ recognized_key "repository"
  ∧ ¬ recognized_key "branch".
Proof.
  intros [_ ->]%master_Some. cbn [schedulers].
  repeat match goal with |- _ ∧ _ => split end.
  - intros s key Hs Hkey. unfold force_keys in Hkey.
    apply list_elem_of_fmap in Hkey as (item & -> & Hitem).
    destruct (force_leaves_scheds _ _ Hs Hitem)
      as [[-> Hin]|[[-> Hin]|[-> Hin]]].
    + rewrite force_leaves_custom in Hin.
      item_cases Hin; subst item; cbn [fst];
        first [ left; by vm_compute | right; left; reflexivity
              | right; right; left; reflexivity
              | right; right; right; left; reflexivity
              | right; right; right; right; reflexivity ].
    + rewrite force_leaves_sync_force in Hin.
      item_cases Hin; subst item; cbn [fst];
        first [ left; by vm_compute
              | right; right; right; left; reflexivity
              | right; right; right; right; reflexivity ].
    + rewrite force_leaves_image_force in Hin.
      item_cases Hin; subst item; cbn [fst];
        first [ right; right; right; left; reflexivity
              | right; right; right; right; reflexivity ].
  - by vm_compute.
  - by vm_compute.
  - by vm_compute.
  - by vm_compute.
  - intros s Hs Hp.
    destruct (forced_scheds _ Hs Hp) as [->|[->| ->]].
    + rewrite force_leaves_sync_force. set_solver.
    + rewrite force_leaves_image_force. set_solver.
    + rewrite force_leaves_custom. set_solver.
  - apply elem_of_scheds; auto 10.
  - apply force_keys_custom.
  - apply elem_of_scheds; auto 10.
  - reflexivity.
  - apply elem_of_scheds; auto 10.
  - reflexivity.
  - reflexivity.
  - reflexivity.
  - reflexivity.
  - intros s key Hs Hkey.
    sched_cases Hs; try (by apply elem_of_nil in Hkey).
    split; [done|].
    change (key ∈ ["repository"; "branch"]) in Hkey.
    item_cases Hkey; auto.
  - by vm_compute.
  - by vm_compute.
Qed.

(** *** Defaults of the forced parameters *)

(** C3: in the loaded configuration, every forced-scheduler parameter whose
    key is [reuse_<kind>_artifacts] is a boolean parameter with default
    [True], and every one whose key is [produce_<kind>_artifacts] is a
    boolean parameter with default [False]; the custom build offers the
    reuse keys of the kinds [sdks] and [cache] and the produce keys of the
    kinds [sdks], [cache] and [build]. *)
Theorem forced_reuse_true_produce_false c :
  master = Some c →
  (∀ s key p, s ∈ schedulers c → (key, p) ∈ force_leaves s →
     (has_shape "reuse_" "_artifacts" key → p = BooleanParameter key true)
     ∧ (has_shape "produce_" "_artifacts" key →
        p = BooleanParameter key false))
  ∧ custom ∈ schedulers c
  ∧ filter (λ key, has_shape "reuse_" "_artifacts" key) (force_keys custom) =
      [reuse_key "sdks"; reuse_key "cache"]
  ∧ filter (λ key, has_shape "produce_" "_artifacts" key) (force_keys custom) =
      [produce_key "sdks"; produce_key "cache"; produce_key "build"].
Proof.
  intros [_ ->]%master_Some. cbn [schedulers].
  split; [|split; [|split]].
  - intros s key p Hs Hitem.
    destruct (force_leaves_scheds _ _ Hs Hitem)
      as [[-> Hin]|[[-> Hin]|[-> Hin]]].
    + rewrite force_leaves_custom in Hin.
      item_cases Hin; injection Hin as -> ->;
        (split; intros Hshape;
         first [reflexivity | by vm_compute in Hshape]).
    + rewrite force_leaves_sync_force in Hin.
      item_cases Hin; injection Hin as -> ->;
        (split; intros Hshape;
         first [reflexivity | by vm_compute in Hshape]).
    + rewrite force_leaves_image_force in Hin.
      item_cases Hin; injection Hin as -> ->;
        (split; intros Hshape;
         first [reflexivity | by vm_compute in Hshape]).
  - apply elem_of_scheds; auto 10.
  - rewrite force_keys_custom. reflexivity.
  - rewrite force_keys_custom. reflexivity.
Qed.

(** *** Default source targets *)

Lemma rb_name : bc_name rb = "clipos".
Proof. reflexivity. Qed.

(** C6: in the loaded configuration, [reference_clipos_builder] is the
    clipos builder of the reference flavor; whenever a forced scheduler
    offers [reuse_<kind>_artifacts], its parameter
    [buildername_providing_<kind>_artifacts] exists, is a choice among the
    names of the clipos builders and defaults to the name of the reference
    builder, which is one of the choices; the parameter of the kind
    [repo_quicksync] is a fixed parameter whose value is the name of the
    repo-sync builder. *)
Theorem forced_source_target_defaults c :
  master = Some c →
  reference_clipos_builder setup FLAVORS docker_worker_name = Some rb
  ∧ (∀ s kind, s ∈ schedulers c → reuse_key kind ∈ force_keys s →
       source_key kind ∈ force_keys s
       ∧ ∀ p, (source_key kind, p) ∈ force_leaves s →
           p = ChoiceStringParameter (source_key kind)
                 (bc_name <$> clipos_builders) (bc_name rb))
  ∧ bc_name rb ∈ bc_name <$> clipos_builders
  ∧ (∀ s p, s ∈ schedulers c →
       (source_key "repo_quicksync", p) ∈ force_leaves s →
       p = FixedParameter (source_key "repo_quicksync")
             (VStr (bc_name repo_sync)))
  ∧ custom ∈ schedulers c
  ∧ source_key "repo_quicksync" ∈ force_keys custom
  ∧ reuse_key "sdks" ∈ force_keys custom
  ∧ reuse_key "cache" ∈ force_keys custom.
Proof.
  intros [Href ->]%master_Some. cbn [schedulers].
  split; [|split; [|split; [|split; [|split]]]].
  - rewrite reference_clipos_builder_eq. by rewrite decide_True.
  - intros s kind Hs Hkey. unfold force_keys in Hkey.
    apply list_elem_of_fmap in Hkey as (item & Hk & Hitem).
    destruct (force_leaves_scheds _ _ Hs Hitem)
      as [[-> Hin]|[[-> Hin]|[-> Hin]]].
    + rewrite force_leaves_custom in Hin.
      item_cases Hin; subst item; cbn [fst] in Hk;
        key_equation "reuse_" "_artifacts" kind Hk; subst kind.
      * split; [rewrite force_keys_custom; set_solver|].
        intros p Hp. rewrite force_leaves_custom in Hp.
        item_cases Hp; first [discriminate Hp | by injection Hp as ->].
      * split; [rewrite force_keys_custom; set_solver|].
        intros p Hp. rewrite force_leaves_custom in Hp.
        item_cases Hp; first [discriminate Hp | by injection Hp as ->].
    + rewrite force_leaves_sync_force in Hin.
      item_cases Hin; subst item; cbn [fst] in Hk;
        key_equation "reuse_" "_artifacts" kind Hk.
    + rewrite force_leaves_image_force in Hin.
      item_cases Hin; subst item; cbn [fst] in Hk;
        key_equation "reuse_" "_artifacts" kind Hk.
  - rewrite clipos_builders_eq, <- list_fmap_compose.
    by apply (list_elem_of_fmap_2 (bc_name ∘ builder_for)) in Href.
  - intros s p Hs Hitem.
    destruct (force_leaves_scheds _ _ Hs Hitem)
      as [[-> Hin]|[[-> Hin]|[-> Hin]]].
    + rewrite force_leaves_custom in Hin.
      item_cases Hin; first [discriminate Hin | by injection Hin as ->].
    + rewrite force_leaves_sync_force in Hin.
      item_cases Hin; discriminate Hin.
    + rewrite force_leaves_image_force in Hin.
      item_cases Hin; discriminate Hin.
  - apply elem_of_scheds; auto 10.
  - rewrite force_keys_custom. set_solver.
Qed.

(** *** The reference flavor and the cadence of the builds *)

Lemma filter_eq_singleton (l : list string) x :
  NoDup l → x ∈ l → filter (λ y, y = x) l = [x].
Proof.
  induction 1 as [|a l Ha Hnd IH]; intros Hx; [by apply elem_of_nil in Hx|].
  destruct (decide (a = x)) as [->|Hne].
  - rewrite filter_cons_True by done. f_equal.
    clear IH Hnd Hx. induction l as [|b l IH]; [done|].
    apply not_elem_of_cons in Ha as [Hb Ha].
    rewrite filter_cons_False by congruence. auto.
  - rewrite filter_cons_False by done.
    apply elem_of_cons in Hx as [->|Hx]; [done | auto].
Qed.

Lemma builder_named_clipos b :
  b ∈ all_builders → bc_name b = "clipos" → b = rb.
Proof.
  intros Hb Hname.
  apply elem_of_all_builders in Hb
    as [(fl & _ & ->) | [-> | [(fl & _ & ->) | ->]]]; try discriminate.
  by apply builder_name_plain in Hname as ->.
Qed.

Lemma builder_named_repo_sync b :
  b ∈ all_builders → bc_name b = "repo-sync" → b = repo_sync.
Proof.
  intros Hb Hname.
  apply elem_of_all_builders in Hb
    as [(fl & _ & ->) | [-> | [(fl & _ & ->) | ->]]]; try discriminate.
  - done.
  - by apply builder_name_not_repo_sync in Hname.
Qed.

Lemma image_builder_names n :
  n ∈ bc_name <$> image_builders →
  ∃ fl, n = "docker-worker-image env:" +:+ fl.
Proof.
  rewrite image_builders_eq.
  intros (b & -> & (fl & -> & _)%list_elem_of_fmap)%list_elem_of_fmap.
  by exists fl.
Qed.

(** A builder that is tied to a worker of another flavor than the reference
    flavor is triggered by the weekly build scheduler only. *)
Lemma other_flavor_weekly_only s b w :
  names_distinct →
  s ∈ scheds → b ∈ all_builders → bc_name b ∈ sched_builderNames s →
  w ∈ tied b → flavor w ≠ reference_worker_flavor →
  s = weekly.
Proof.
  intros Hnd Hs Hb Hname Hw Hfl.
  apply elem_of_all_builders in Hb
    as [(fl & _ & ->) | [-> | [(fl & _ & ->) | ->]]].
  - by apply tied_image_builder in Hw.
  - apply tied_repo_sync in Hw; naive_solver.
  - apply tied_builder_for in Hw as (_ & <- & _); [|done].
    cbn [bc_name clipos_builder] in Hname. sched_cases Hs.
    + apply list_elem_of_singleton in Hname.
      by apply builder_name_plain in Hname.
    + apply list_elem_of_singleton in Hname.
      by apply builder_name_not_repo_sync in Hname.
    + apply list_elem_of_singleton in Hname.
      by apply builder_name_plain in Hname.
    + done.
    + apply image_builder_names in Hname as (fl' & Hname).
      by apply builder_name_not_image in Hname.
    + apply list_elem_of_singleton in Hname.
      by apply builder_name_not_repo_sync in Hname.
    + apply image_builder_names in Hname as (fl' & Hname).
      by apply builder_name_not_image in Hname.
    + apply list_elem_of_singleton in Hname.
      by apply builder_name_not_ondemand in Hname.
  - apply tied_ondemand in Hw; naive_solver.
Qed.

(** A periodic scheduler of the work days triggers only builders that are
    tied to workers of the reference flavor. *)
Lemma work_days_reference_only s b w :
  names_distinct →
  s ∈ scheds → sched_dayOfWeek s = Some "1,2,3,4,5" →
  b ∈ all_builders → bc_name b ∈ sched_builderNames s →
  w ∈ tied b → flavor w = reference_worker_flavor.
Proof.
  intros Hnd Hs Hday Hb Hname Hw.
  destruct (decide (flavor w = reference_worker_flavor)) as [|Hne]; [done|].
  assert (s = weekly) as -> by eauto using other_flavor_weekly_only.
  discriminate Hday.
Qed.

(** C7: when the keys of [FLAVORS] and the names of the registered workers
    are pairwise distinct, in the loaded configuration exactly one flavor of
    [FLAVORS] is the reference flavor; the intra-day and the nightly build
    schedulers run on the work days and trigger the builder of the
    reference flavor and no other; no periodic scheduler of the work days
    triggers a builder tied to a worker of another flavor; and a builder
    tied to a worker of another flavor is triggered by no scheduler but the
    weekly build, which runs on Saturdays and triggers the clipos builder of
    every flavor. *)
Theorem reference_flavor_cadence c :
  NoDup FLAVORS.*1 → names_distinct → master = Some c →
  filter (λ fl, fl = reference_worker_flavor) FLAVORS.*1 =
    [reference_worker_flavor]
  ∧ (∀ s, s = intraday ∨ s = nightly →
       s ∈ schedulers c
       ∧ sched_dayOfWeek s = Some "1,2,3,4,5"
       ∧ sched_builderNames s = [bc_name rb])
  ∧ (rb ∈ builders c
     ∧ ∀ w, w ∈ tied rb → flavor w = reference_worker_flavor)
  ∧ (∀ s b w, s ∈ schedulers c → sched_dayOfWeek s = Some "1,2,3,4,5" →
       b ∈ builders c → bc_name b ∈ sched_builderNames s →
       w ∈ tied b → flavor w = reference_worker_flavor)
  ∧ (∀ s b w, s ∈ schedulers c → b ∈ builders c →
       bc_name b ∈ sched_builderNames s →
       w ∈ tied b → flavor w ≠ reference_worker_flavor →
       s = weekly)
  ∧ (weekly ∈ schedulers c ∧ sched_dayOfWeek weekly = Some "6")
  ∧ (∀ fl, fl ∈ FLAVORS.*1 →
       builder_for fl ∈ builders c
       ∧ bc_name (builder_for fl) ∈ sched_builderNames weekly
       ∧ new_worker setup fl true ∈ tied (builder_for fl)).
Proof.
  intros Hkeys Hnd [Href ->]%master_Some. cbn [schedulers builders].
  split; [by apply filter_eq_singleton|].
  split.
  { intros s [->| ->]; (split; [apply elem_of_scheds; auto 10 | done]). }
  split.
  { split.
    - apply elem_of_all_builders. right; right; left. eauto.
    - intros w Hw. apply tied_builder_for in Hw; naive_solver. }
  split; [intros s b w; by apply work_days_reference_only|].
  split; [intros s b w ????; by eapply other_flavor_weekly_only|].
  split; [split; [apply elem_of_scheds; auto 10 | done]|].
  intros fl Hfl. split; [|split].
  - apply elem_of_all_builders. right; right; left. eauto.
  - cbn [sched_builderNames clipos_build_weekly_sched].
    rewrite clipos_builders_eq, <- list_fmap_compose.
    by apply (list_elem_of_fmap_2 (bc_name ∘ builder_for)) in Hfl.
  - apply tied_builder_for; [done|]. split; [|done].
    by apply new_worker_in_catalog.
Qed.

(** ** Further properties of the module *)

(** *** Loading *)

(** X1: the module loads exactly when the reference flavor is a key of
    [FLAVORS]; otherwise reading [reference_clipos_builder] raises
    [NameError], as it does for an empty [FLAVORS]. *)
Theorem module_loads_iff_reference_flavor :
  (is_Some master ↔ reference_worker_flavor ∈ FLAVORS.*1)
  ∧ (master = None ↔ reference_worker_flavor ∉ FLAVORS.*1)
  ∧ (FLAVORS = [] → master = None).
Proof.
  split; [|split].
  - split; [|apply master_loads].
    intros [c Hc]. by apply master_Some in Hc as [? _].
  - split; [|apply master_fails].
    intros Hnone Href. apply master_loads in Href as [c Hc]. congruence.
  - intros Hempty. apply master_fails. rewrite Hempty. apply not_elem_of_nil.
Qed.

(** *** The reference worker lists *)

Lemma filter_identity_present fl p :
  NoDup FLAVORS.*1 → fl ∈ FLAVORS.*1 →
  filter (λ w, flavor w = fl ∧ privileged w = p) catalog =
  [new_worker setup fl p].
Proof.
  intros Hnd Hfl.
  rewrite (list_filter_iff _ (λ w, privileged w = p ∧ flavor w = fl))
    by (intros w; tauto).
  rewrite <- list_filter_filter, catalog_eq, filter_flavor_present by done.
  unfold workers_of_flavor. rewrite !filter_cons, filter_nil. simpl.
  by destruct p.
Qed.

Lemma filter_identity_absent fl p :
  fl ∉ FLAVORS.*1 →
  filter (λ w, flavor w = fl ∧ privileged w = p) catalog = [].
Proof.
  intros Hfl.
  rewrite (list_filter_iff _ (λ w, privileged w = p ∧ flavor w = fl))
    by (intros w; tauto).
  by rewrite <- list_filter_filter, catalog_eq, filter_flavor_absent.
Qed.

(** X2: the list [privileged_reference_workers] that the worker loop
    accumulates holds the workers the reference clipos builder selects by
    comprehension, so the on-demand builder is tied to the worker names of
    the reference clipos builder; and the accumulated
    [unprivileged_reference_workers] are the workers of the repo-sync
    builder. *)
Theorem ondemand_shares_reference_workers :
  bc_workernames ondemand = bc_workernames rb
  ∧ bc_workernames repo_sync =
      docker_worker_name <$> unprivileged_reference_workers setup FLAVORS
  ∧ (∀ w, w ∈ privileged_reference_workers setup FLAVORS →
       w ∈ catalog ∧ flavor w = reference_worker_flavor
       ∧ privileged w = true)
  ∧ (∀ w, w ∈ unprivileged_reference_workers setup FLAVORS →
       w ∈ catalog ∧ flavor w = reference_worker_flavor
       ∧ privileged w = false).
Proof.
  split; [|split; [|split]].
  - simpl. by rewrite privileged_reference_workers_eq.
  - simpl. by rewrite unprivileged_reference_workers_eq.
  - intros w. rewrite privileged_reference_workers_eq, list_elem_of_filter.
    tauto.
  - intros w. rewrite unprivileged_reference_workers_eq, list_elem_of_filter.
    tauto.
Qed.

(** X3: when the reference flavor is not a key of [FLAVORS], the two
    reference worker lists stay empty, the repo-sync and the on-demand
    builders get no worker name, and the module does not load. *)
Theorem no_reference_flavor_no_reference_workers :
  reference_worker_flavor ∉ FLAVORS.*1 →
  unprivileged_reference_workers setup FLAVORS = []
  ∧ privileged_reference_workers setup FLAVORS = []
  ∧ bc_workernames repo_sync = []
  ∧ bc_workernames ondemand = []
  ∧ master = None.
Proof.
  intros Href.
  rewrite unprivileged_reference_workers_eq, privileged_reference_workers_eq.
  simpl. rewrite privileged_reference_workers_eq.
  rewrite !filter_identity_absent by done.
  repeat split. by apply master_fails.
Qed.

(** *** Builders and registered workers *)

(** X4: every worker name of a registered builder is the name of a
    registered worker. *)
Theorem builder_workernames_registered :
  ∀ b n, b ∈ all_builders → n ∈ bc_workernames b →
    n ∈ worker_name docker_worker_name <$> registered_workers.
Proof.
  intros b n Hb Hn. rewrite registered_names.
  assert (∀ (P : DockerLatentWorker → Prop) `{∀ w, Decision (P w)},
            n ∈ docker_worker_name <$> filter P catalog →
            n ∈ "_docker-client-localworker"
                  :: (docker_worker_name <$> catalog)) as Hsel.
  { intros P ? (w & -> & Hw)%list_elem_of_fmap. right.
    apply list_elem_of_fmap_2.
    by apply list_elem_of_filter in Hw as [_ ?]. }
  apply elem_of_all_builders in Hb
    as [(fl & _ & ->) | [-> | [(fl & _ & ->) | ->]]].
  - apply list_elem_of_singleton in Hn as ->. by left.
  - exact (Hsel _ _ Hn).
  - exact (Hsel _ _ Hn).
  - simpl in Hn. rewrite privileged_reference_workers_eq in Hn.
    exact (Hsel _ _ Hn).
Qed.

(** X5: when the keys of [FLAVORS] are pairwise distinct, every registered
    builder of the loaded configuration is tied to exactly one worker
    name. *)
Theorem loaded_builders_have_one_worker c :
  NoDup FLAVORS.*1 →
  BuildmasterConfig setup FLAVORS docker_worker_name local_manifest_example =
    Some c →
  ∀ b, b ∈ builders c → length (bc_workernames b) = 1.
Proof.
  intros Hnd [Href ->]%master_Some b Hb. cbn [builders] in Hb.
  apply elem_of_all_builders in Hb
    as [(fl & _ & ->) | [-> | [(fl & Hfl & ->) | ->]]]; simpl.
  - done.
  - by rewrite filter_identity_present.
  - by rewrite filter_identity_present.
  - rewrite privileged_reference_workers_eq.
    by rewrite filter_identity_present.
Qed.

(** *** Schedulers and registered builders *)

Lemma clipos_builders_names :
  bc_name <$> clipos_builders = builder_name <$> FLAVORS.*1.
Proof. by rewrite clipos_builders_eq, <- list_fmap_compose. Qed.

Lemma name_of_clipos_builder_registered n :
  n ∈ builder_name <$> FLAVORS.*1 → n ∈ bc_name <$> all_builders.
Proof. rewrite all_builders_names. set_solver. Qed.

Lemma name_of_image_builder_registered n :
  n ∈ bc_name <$> image_builders → n ∈ bc_name <$> all_builders.
Proof.
  rewrite all_builders_names, image_builders_eq, <- list_fmap_compose.
  set_solver.
Qed.

Lemma rb_registered :
  reference_worker_flavor ∈ FLAVORS.*1 →
  bc_name rb ∈ builder_name <$> FLAVORS.*1.
Proof. intros Href. by apply (list_elem_of_fmap_2 builder_name) in Href. Qed.

(** X6: in the loaded configuration every builder name a scheduler
    triggers is the name of a registered builder. *)
Theorem scheduler_builders_registered c :
  master = Some c →
  ∀ s n, s ∈ schedulers c → n ∈ sched_builderNames s →
    n ∈ bc_name <$> builders c.
Proof.
  intros [Href ->]%master_Some s n Hs Hn. cbn [schedulers builders] in *.
  sched_cases Hs; cbn [sched_builderNames] in Hn.
  - apply list_elem_of_singleton in Hn as ->.
    by apply name_of_clipos_builder_registered, rb_registered.
  - apply list_elem_of_singleton in Hn as ->.
    rewrite all_builders_names. set_solver.
  - apply list_elem_of_singleton in Hn as ->.
    by apply name_of_clipos_builder_registered, rb_registered.
  - apply name_of_clipos_builder_registered. by rewrite <- clipos_builders_names.
  - by apply name_of_image_builder_registered.
  - apply list_elem_of_singleton in Hn as ->.
    rewrite all_builders_names. set_solver.
  - by apply name_of_image_builder_registered.
  - apply list_elem_of_singleton in Hn as ->.
    rewrite all_builders_names. set_solver.
Qed.

(** X7: in the loaded configuration every registered builder is triggered
    by some scheduler, and by a periodic one unless it is the on-demand
    builder. *)
Theorem every_builder_is_triggered c :
  master = Some c →
  ∀ b, b ∈ builders c →
    ∃ s, s ∈ schedulers c
         ∧ bc_name b ∈ sched_builderNames s
         ∧ (bc_name b ≠ "clipos ondemand" →
            is_Some (periodic_properties s)).
Proof.
  intros [Href ->]%master_Some b Hb. cbn [schedulers builders] in *.
  apply elem_of_all_builders in Hb
    as [(fl & Hfl & ->) | [-> | [(fl & Hfl & ->) | ->]]].
  - exists image_weekly. split; [apply elem_of_scheds; auto 10|].
    split; [|by eexists].
    cbn [sched_builderNames docker_buildenv_image_rebuild_weekly_sched].
    apply list_elem_of_fmap_2. rewrite image_builders_eq.
    by apply list_elem_of_fmap_2.
  - exists sync_nightly. split; [apply elem_of_scheds; auto 10|].
    split; [by left | by eexists].
  - exists weekly. split; [apply elem_of_scheds; auto 10|].
    split; [|by eexists].
    cbn [sched_builderNames clipos_build_weekly_sched].
    apply list_elem_of_fmap_2. rewrite clipos_builders_eq.
    by apply list_elem_of_fmap_2.
  - exists custom. split; [apply elem_of_scheds; auto 10|].
    split; [by left | done].
Qed.

(** X8: in the loaded configuration the on-demand builder is registered and
    is triggered by the custom forced scheduler, which triggers it alone,
    and by no other scheduler; no forced scheduler triggers a clipos builder
    of a flavor: those are triggered by periodic schedulers only, and each
    of them by the weekly build. *)
Theorem ondemand_forced_flavors_periodic c :
  master = Some c →
  (ondemand ∈ builders c
   ∧ custom ∈ schedulers c
   ∧ sched_builderNames custom = [bc_name ondemand])
  ∧ (∀ s, s ∈ schedulers c →
       bc_name ondemand ∈ sched_builderNames s → s = custom)
  ∧ periodic_properties custom = None
  ∧ (∀ s fl, s ∈ schedulers c →
       bc_name (builder_for fl) ∈ sched_builderNames s →
       is_Some (periodic_properties s))
  ∧ (∀ fl, fl ∈ FLAVORS.*1 →
       builder_for fl ∈ builders c
       ∧ weekly ∈ schedulers c
       ∧ bc_name (builder_for fl) ∈ sched_builderNames weekly
       ∧ is_Some (periodic_properties weekly)).
Proof.
  intros [Href ->]%master_Some. cbn [schedulers builders].
  split; [|split; [|split; [done|split]]].
  - split; [apply elem_of_all_builders; auto 10|].
    split; [apply elem_of_scheds; auto 10 | done].
  - intros s Hs Hn. sched_cases Hs.
    + apply list_elem_of_singleton in Hn. discriminate Hn.
    + apply list_elem_of_singleton in Hn. discriminate Hn.
    + apply list_elem_of_singleton in Hn. discriminate Hn.
    + change (bc_name ondemand ∈ bc_name <$> clipos_builders) in Hn.
      rewrite clipos_builders_names in Hn.
      apply list_elem_of_fmap in Hn as (fl & Hn & _). symmetry in Hn.
      by apply builder_name_not_ondemand in Hn.
    + apply image_builder_names in Hn as (fl & Hn). discriminate Hn.
    + apply list_elem_of_singleton in Hn. discriminate Hn.
    + apply image_builder_names in Hn as (fl & Hn). discriminate Hn.
    + done.
  - intros s fl Hs Hn. cbn [bc_name clipos_builder] in Hn.
    sched_cases Hs; try by eexists.
    + apply list_elem_of_singleton in Hn.
      by apply builder_name_not_repo_sync in Hn.
    + apply image_builder_names in Hn as (fl' & Hn).
      by apply builder_name_not_image in Hn.
    + apply list_elem_of_singleton in Hn.
      by apply builder_name_not_ondemand in Hn.
  - intros fl Hfl.
    split; [apply elem_of_all_builders; right; right; left; eauto|].
    split; [apply elem_of_scheds; auto 10|].
    split; [|by eexists].
    cbn [sched_builderNames clipos_build_weekly_sched].
    rewrite clipos_builders_eq, <- list_fmap_compose.
    by apply (list_elem_of_fmap_2 (bc_name ∘ builder_for)) in Hfl.
Qed.

(** *** Artifact providers *)

Lemma provider_names_Nightly n bs d h m cbs items kind :
  provider_names (Nightly n bs d h m cbs (dict items)) kind =
  from_option value_names []
    (dict (items ++ [("scheduler", VStr n)]) !! source_key kind).
Proof. unfold provider_names. by rewrite sched_properties_Nightly. Qed.

Lemma provider_names_image_weekly kind : provider_names image_weekly kind = [].
Proof.
  apply elem_of_nil_inv. intros n Hn.
  unfold docker_buildenv_image_rebuild_weekly_sched in Hn.
  rewrite (provider_names_Nightly _ _ _ _ _ _ []) in Hn. cbn [app] in Hn.
  destruct (dict _ !! source_key kind) as [v|] eqn:Hv;
    [|by apply elem_of_nil in Hn].
  apply dict_lookup_Some in Hv. item_cases Hv. discriminate Hv.
Qed.

Ltac provider_items H :=
  try unfold clipos_incremental_build_intraday_sched in H;
  try unfold clipos_build_nightly_sched in H;
  try unfold clipos_build_weekly_sched in H;
  try unfold repo_sync_nightly_sched in H;
  rewrite provider_names_Nightly in H; cbn [app] in H.

(** The providers any scheduler of the configuration names: the repo-sync
    builder for the quick-sync artifacts, the reference builder or a clipos
    builder of some flavor for the SDK and cache artifacts. *)
Lemma provider_cases s kind n :
  s ∈ scheds → n ∈ provider_names s kind →
  (kind = "repo_quicksync" ∧ n = bc_name repo_sync)
  ∨ ((kind = "sdks" ∨ kind = "cache")
     ∧ (n = bc_name rb ∨ n ∈ bc_name <$> clipos_builders)).
Proof.
  intros Hs Hn.
  assert (∀ items : list (string * Value),
            n ∈ from_option value_names [] (dict items !! source_key kind) →
            ∃ v, (source_key kind, v) ∈ items ∧ n ∈ value_names v) as Hdict.
  { intros items Hin.
    destruct (dict items !! source_key kind) as [v|] eqn:Hv;
      [|by apply elem_of_nil in Hin].
    exists v. split; [by apply dict_lookup_Some | done]. }
  sched_cases Hs.
  - provider_items Hn. apply Hdict in Hn as (v & Hv & Hn).
    item_cases Hv; apply pair_equal_spec in Hv as [Hk ->];
      key_equation "buildername_providing_" "_artifacts" kind Hk;
      subst kind; apply list_elem_of_singleton in Hn as ->; auto.
  - provider_items Hn. apply Hdict in Hn as (v & Hv & Hn).
    item_cases Hv; apply pair_equal_spec in Hv as [Hk ->];
      key_equation "buildername_providing_" "_artifacts" kind Hk.
  - provider_items Hn. apply Hdict in Hn as (v & Hv & Hn).
    item_cases Hv; apply pair_equal_spec in Hv as [Hk ->];
      key_equation "buildername_providing_" "_artifacts" kind Hk;
      subst kind; apply list_elem_of_singleton in Hn as ->; auto.
  - provider_items Hn. apply Hdict in Hn as (v & Hv & Hn).
    item_cases Hv; apply pair_equal_spec in Hv as [Hk ->];
      key_equation "buildername_providing_" "_artifacts" kind Hk;
      subst kind; apply list_elem_of_singleton in Hn as ->; auto.
  - rewrite provider_names_image_weekly in Hn. by apply elem_of_nil in Hn.
  - apply list_elem_of_bind in Hn as (item & Hn & Hitem).
    apply list_elem_of_filter in Hitem as [Hk Hitem].
    rewrite force_leaves_sync_force in Hitem.
    item_cases Hitem; subst item; cbn [fst] in Hk; symmetry in Hk;
      key_equation "buildername_providing_" "_artifacts" kind Hk.
  - apply list_elem_of_bind in Hn as (item & Hn & Hitem).
    apply list_elem_of_filter in Hitem as [Hk Hitem].
    rewrite force_leaves_image_force in Hitem.
    item_cases Hitem; subst item; cbn [fst] in Hk; symmetry in Hk;
      key_equation "buildername_providing_" "_artifacts" kind Hk.
  - apply list_elem_of_bind in Hn as (item & Hn & Hitem).
    apply list_elem_of_filter in Hitem as [Hk Hitem].
    rewrite force_leaves_custom in Hitem.
    item_cases Hitem; subst item; cbn [fst snd] in Hk, Hn; symmetry in Hk;
      key_equation "buildername_providing_" "_artifacts" kind Hk;
      subst kind; cbn in Hn.
    + apply list_elem_of_singleton in Hn as ->. auto.
    + apply elem_of_cons in Hn as [->|Hn]; auto.
    + apply elem_of_cons in Hn as [->|Hn]; auto.
Qed.

(** X9: in the loaded configuration, every builder that a scheduler names
    as the provider of artifacts is a registered builder that a periodic
    scheduler keeps supplied: the provider of the quick-sync artifacts is
    the repo-sync builder, which the nightly synchronization triggers; a
    provider of the SDK or cache artifacts is triggered by the weekly
    build, which fixes the produce flag of that kind to [True]. *)
Theorem artifact_providers_are_supplied c :
  master = Some c →
  ∀ s kind n, s ∈ schedulers c → n ∈ provider_names s kind →
    n ∈ bc_name <$> builders c
    ∧ ((kind = "repo_quicksync"
        ∧ n = bc_name repo_sync
        ∧ sync_nightly ∈ schedulers c
        ∧ n ∈ sched_builderNames sync_nightly)
       ∨ ((kind = "sdks" ∨ kind = "cache")
          ∧ weekly ∈ schedulers c
          ∧ n ∈ sched_builderNames weekly
          ∧ periodic_value weekly (produce_key kind) = Some (VBool true))).
Proof.
  intros [Href ->]%master_Some s kind n Hs Hn. cbn [schedulers builders] in *.
  assert (bc_name rb ∈ bc_name <$> clipos_builders) as Hrb
    by (rewrite clipos_builders_names; by apply rb_registered).
  destruct (provider_cases _ _ _ Hs Hn) as [[-> ->]|[Hkind Hname]].
  - split; [rewrite all_builders_names; set_solver|].
    left. repeat split; [apply elem_of_scheds; auto 10 | by left].
  - assert (n ∈ bc_name <$> clipos_builders) as Hin
      by (destruct Hname as [->|?]; done).
    split.
    + apply name_of_clipos_builder_registered.
      by rewrite <- clipos_builders_names.
    + right. split; [done|]. split; [apply elem_of_scheds; auto 10|].
      split; [done|]. destruct Hkind as [->| ->]; periodic_dict_value.
Qed.

(** *** The custom build covers the periodic builds *)

Lemma periodic_value_image_weekly key :
  periodic_value image_weekly key =
  dict [("scheduler", VStr "docker-workers-weekly-rebuild")] !! key.
Proof. reflexivity. Qed.

Ltac periodic_value_items H :=
  first [ rewrite periodic_value_image_weekly in H
        | try unfold clipos_incremental_build_intraday_sched in H;
          try unfold clipos_build_nightly_sched in H;
          try unfold clipos_build_weekly_sched in H;
          try unfold repo_sync_nightly_sched in H;
          rewrite periodic_value_Nightly in H; cbn [app] in H ].

(** X10: in the loaded configuration, every property that a periodic
    scheduler fixes through its [properties] argument is offered by the
    custom forced scheduler under the same key, by a parameter that can
    submit the value the periodic scheduler fixes.  The one other property
    of a periodic scheduler is [scheduler], which holds the name of the
    scheduler in each of them and which the custom build does not offer. *)
Theorem custom_build_covers_periodic_properties c :
  master = Some c →
  (∀ s key v, s ∈ schedulers c → periodic_value s key = Some v →
     (key = "scheduler" ∧ v = VStr (sched_name s))
     ∨ ∃ p, (key, p) ∈ force_leaves custom ∧ param_admits p v)
  ∧ (∀ s, s ∈ schedulers c → is_Some (periodic_properties s) →
       periodic_value s "scheduler" = Some (VStr (sched_name s)))
  ∧ "scheduler" ∉ force_keys custom.
Proof.
  intros [Href ->]%master_Some. cbn [schedulers]. split; [|split].
  - intros s key v Hs Hv.
    assert (bc_name rb ∈ bc_name <$> clipos_builders) as Hrb
      by (rewrite clipos_builders_names; by apply rb_registered).
    rewrite force_leaves_custom.
    sched_cases Hs; try discriminate Hv;
      periodic_value_items Hv;
      apply dict_lookup_Some in Hv;
      item_cases Hv; apply pair_equal_spec in Hv as [-> ->];
      first
        [ by left
        | right; (eexists; split; [repeat first [left | right]|]);
          first [exact I | by apply bool_decide_pack] ].
  - intros s Hs [props Hp].
    sched_cases Hs; first [discriminate Hp | apply sched_properties_scheduler].
  - rewrite force_keys_custom. apply (bool_decide_unpack _). by vm_compute.
Qed.

(** *** Codebases *)

Lemma image_factory_iff_name b :
  b ∈ all_builders →
  is_docker_image_factory (bc_factory b) ↔
  ∃ fl, bc_name b = "docker-worker-image env:" +:+ fl.
Proof.
  intros Hb.
  apply elem_of_all_builders in Hb
    as [(fl & _ & ->) | [-> | [(fl & _ & ->) | ->]]]; simpl.
  - split; [by exists fl | done].
  - split; [done | intros [fl Hfl]; discriminate Hfl].
  - split; [done | intros [fl' Hfl]; by apply builder_name_not_image in Hfl].
  - split; [done | intros [fl Hfl]; discriminate Hfl].
Qed.

Lemma manifest_codebase :
  manifest_codebases setup !! "" =
  Some {| repository := clipos_manifest_git_url setup; branch := "master" |}.
Proof. unfold manifest_codebases. dict_value. Qed.

Lemma config_codebase :
  config_codebases setup !! "" =
  Some {| repository := config_git_clone_url setup;
          branch := config_git_revision setup |}.
Proof. unfold config_codebases. dict_value. Qed.

(** X11: in the loaded configuration, a scheduler that triggers an image
    builder hands it the configuration repository at the configured
    revision, and a scheduler that triggers any other builder hands it the
    manifest repository on the branch [master] (as editable defaults in the
    custom build). *)
Theorem codebase_follows_factory c :
  master = Some c →
  ∀ s b, s ∈ schedulers c → b ∈ builders c →
    bc_name b ∈ sched_builderNames s →
    if is_docker_image_factory (bc_factory b)
    then sched_repository s = Some (config_git_clone_url setup)
         ∧ sched_branch s = Some (config_git_revision setup)
    else sched_repository s = Some (clipos_manifest_git_url setup)
         ∧ sched_branch s = Some "master".
Proof.
  intros [Href ->]%master_Some s b Hs Hb Hn. cbn [schedulers builders] in *.
  pose proof (image_factory_iff_name b Hb) as Himage.
  assert (∀ n : string, bc_name b = n →
            (∀ fl, n ≠ "docker-worker-image env:" +:+ fl) →
            is_docker_image_factory (bc_factory b) = false) as Hother.
  { intros n Hname Hne.
    destruct (is_docker_image_factory (bc_factory b)); [|done].
    destruct Himage as [[fl Hfl] _]; [done|].
    rewrite Hname in Hfl. by apply Hne in Hfl. }
  assert (bc_name b ∈ bc_name <$> image_builders →
          is_docker_image_factory (bc_factory b) = true) as Hisimage.
  { intros Hin%image_builder_names.
    destruct (is_docker_image_factory (bc_factory b)); [done|].
    by apply Himage in Hin. }
  assert (∀ s', s' = intraday ∨ s' = sync_nightly ∨ s' = nightly
                ∨ s' = weekly →
            sched_repository s' = Some (clipos_manifest_git_url setup)
            ∧ sched_branch s' = Some "master") as Hmanifest.
  { intros s' [->|[->|[->| ->]]];
      cbv [sched_repository sched_branch
             clipos_incremental_build_intraday_sched
             repo_sync_nightly_sched clipos_build_nightly_sched
             clipos_build_weekly_sched];
      by rewrite manifest_codebase. }
  sched_cases Hs.
  - apply list_elem_of_singleton in Hn.
    rewrite (Hother _ Hn) by (intros fl; discriminate).
    apply Hmanifest; auto.
  - apply list_elem_of_singleton in Hn.
    rewrite (Hother _ Hn) by (intros fl; discriminate).
    apply Hmanifest; auto.
  - apply list_elem_of_singleton in Hn.
    rewrite (Hother _ Hn) by (intros fl; discriminate).
    apply Hmanifest; auto.
  - change (bc_name b ∈ bc_name <$> clipos_builders) in Hn.
    rewrite clipos_builders_names in Hn.
    apply list_elem_of_fmap in Hn as (fl & Hn & _).
    rewrite (Hother _ Hn) by (intros fl'; apply builder_name_not_image).
    apply Hmanifest; auto.
  - rewrite (Hisimage Hn).
    cbv [sched_repository sched_branch
           docker_buildenv_image_rebuild_weekly_sched].
    by rewrite config_codebase.
  - apply list_elem_of_singleton in Hn.
    rewrite (Hother _ Hn) by (intros fl; discriminate). done.
  - rewrite (Hisimage Hn). done.
  - apply list_elem_of_singleton in Hn.
    rewrite (Hother _ Hn) by (intros fl; discriminate). done.
Qed.

(** *** Tags *)

(** X12: when the registered workers have pairwise distinct names, a
    registered builder tagged [clipos] carries the tag
    [docker-env:<flavor>] of every worker it is tied to, and an image
    builder carries the tag of the flavor its factory builds. *)
Theorem builder_tags_name_the_flavor :
  names_distinct →
  (∀ b w, b ∈ c_builders setup FLAVORS docker_worker_name →
     "clipos" ∈ bc_tags b →
     w ∈ tied_workers docker_worker_name catalog b →
     "docker-env:" +:+ flavor w ∈ bc_tags b)
  ∧ (∀ b fl st, b ∈ c_builders setup FLAVORS docker_worker_name →
       bc_factory b = BuildDockerImage fl st →
       "docker-env:" +:+ fl ∈ bc_tags b).
Proof.
  intros Hnd. split.
  - intros b w Hb Htag Hw.
    apply elem_of_all_builders in Hb
      as [(fl & _ & ->) | [-> | [(fl & _ & ->) | ->]]].
    + by apply tied_image_builder in Hw.
    + cbn in Htag. item_cases Htag; discriminate Htag.
    + apply tied_builder_for in Hw as (_ & <- & _); [|done].
      cbn. set_solver.
    + apply tied_ondemand in Hw as (_ & -> & _); [|done].
      cbn. set_solver.
  - intros b fl st Hb Hf.
    apply elem_of_all_builders in Hb
      as [(fl' & _ & ->) | [-> | [(fl' & _ & ->) | ->]]];
      try discriminate Hf.
    injection Hf as <- _. cbn. set_solver.
Qed.

(** *** Force flags *)

(** X13: in the loaded configuration, periodic or forced, the only key that
    starts with [force_] is the force-fetch key of the source-tree
    quick-sync artifacts, and a scheduler holds a force key of a kind only
    for that kind.  No scheduler holds a produce or a reuse key of that
    kind, and every scheduler that holds the force key names the repo-sync
    builder, which it does not trigger, as the provider of the quick-sync
    artifacts.  The weekly build fixes the flag to [True], the intra-day
    and nightly builds fix it to [False], and the custom build offers it as
    a boolean parameter with default [False]. *)
Theorem only_quicksync_has_force_flag c :
  master = Some c →
  (∀ s key, s ∈ schedulers c → has_key s key →
     has_shape "force_" "" key → key = force_key "repo_quicksync")
  ∧ (∀ s kind, s ∈ schedulers c → has_key s (force_key kind) →
       kind = "repo_quicksync")
  ∧ (∀ s, s ∈ schedulers c →
       ¬ has_key s (produce_key "repo_quicksync")
       ∧ ¬ has_key s (reuse_key "repo_quicksync"))
  ∧ (∀ s, s ∈ schedulers c → has_key s (force_key "repo_quicksync") →
       provider_names s "repo_quicksync" = [bc_name repo_sync]
       ∧ bc_name repo_sync ∉ sched_builderNames s)
  ∧ (weekly ∈ schedulers c
     ∧ periodic_value weekly (force_key "repo_quicksync") = Some (VBool true)
     ∧ periodic_value weekly (source_key "repo_quicksync") =
         Some (VStr (bc_name repo_sync)))
  ∧ (∀ s, s = intraday ∨ s = nightly →
       s ∈ schedulers c
       ∧ periodic_value s (force_key "repo_quicksync") = Some (VBool false))
  ∧ (custom ∈ schedulers c
     ∧ (force_key "repo_quicksync",
        BooleanParameter (force_key "repo_quicksync") false)
         ∈ force_leaves custom).
Proof.
  intros [_ ->]%master_Some. cbn [schedulers].
  split; [|split; [|split; [|split; [|split; [|split]]]]].
  - intros s key Hs Hkey Hshape.
    pose proof (has_key_scheds _ _ Hs Hkey) as Hin.
    item_cases Hin; subst key; first [reflexivity | by vm_compute in Hshape].
  - intros s kind Hs Hkey.
    pose proof (has_key_scheds _ _ Hs Hkey) as Hin.
    item_cases Hin;
      key_equation "force_" "_artifacts_download" kind Hin; exact Hin.
  - intros s Hs. split; intros Hkey;
      pose proof (has_key_scheds _ _ Hs Hkey) as Hin;
      item_cases Hin; discriminate Hin.
  - intros s Hs Hkey. sched_cases Hs.
    + split; [by vm_compute|].
      intros Hn%list_elem_of_singleton. discriminate Hn.
    + apply has_key_sync_nightly in Hkey. item_cases Hkey; discriminate Hkey.
    + split; [by vm_compute|].
      intros Hn%list_elem_of_singleton. discriminate Hn.
    + split; [by vm_compute|].
      cbn [sched_builderNames clipos_build_weekly_sched].
      rewrite clipos_builders_names.
      intros (fl & Hn & _)%list_elem_of_fmap. symmetry in Hn.
      by apply builder_name_not_repo_sync in Hn.
    + apply has_key_image_weekly in Hkey. item_cases Hkey; discriminate Hkey.
    + apply has_key_ForceScheduler in Hkey as [Hkey|Hkey];
        [discriminate Hkey|].
      change (force_key "repo_quicksync" ∈ (force_leaves sync_force).*1)
        in Hkey.
      rewrite force_leaves_sync_force in Hkey. cbn [fmap list_fmap fst] in Hkey.
      item_cases Hkey; discriminate Hkey.
    + apply has_key_ForceScheduler in Hkey as [Hkey|Hkey];
        [discriminate Hkey|].
      change (force_key "repo_quicksync" ∈ (force_leaves image_force).*1)
        in Hkey.
      rewrite force_leaves_image_force in Hkey.
      cbn [fmap list_fmap fst] in Hkey.
      item_cases Hkey; discriminate Hkey.
    + split; [by vm_compute|].
      intros Hn%list_elem_of_singleton. discriminate Hn.
  - split; [apply elem_of_scheds; auto 10|]. split; periodic_dict_value.
  - intros s [->| ->];
      (split; [apply elem_of_scheds; auto 10 | periodic_dict_value]).
  - split; [apply elem_of_scheds; auto 10|].
    rewrite force_leaves_custom. set_solver.
Qed.

End Properties.

(** ** The sample deployment *)

Ltac sample_decide := apply (bool_decide_unpack _); by vm_compute.

(** Membership in the schedulers and builders of the sample configuration
    is read off the characterisation of these lists. *)
Ltac sample_scheduled :=
  apply (proj2 (elem_of_scheds sample_setup sample_FLAVORS
                  sample_worker_name sample_manifest _));
  auto 10.

Lemma sample_FLAVORS_NoDup : NoDup sample_FLAVORS.*1.
Proof. sample_decide. Qed.

Lemma sample_names_NoDup :
  NoDup (worker_name sample_worker_name <$>
           c_workers sample_setup sample_FLAVORS).
Proof. sample_decide. Qed.

Lemma sample_config_loads : sample_config = Some sample_master.
Proof. apply master_Some. split; [sample_decide | reflexivity]. Qed.



(** C2, as stated, fails: in the sample the custom build takes
    [use_local_manifest], which is not a recognized key. *)
Lemma custom_build_takes_use_local_manifest :
  ¬ (∀ c, sample_config = Some c → forced_keys_all_recognized c).
Proof.
  intros Hall.
  specialize (Hall sample_master sample_config_loads
                (clipos_custom_build_force_sched sample_setup sample_FLAVORS
                   sample_worker_name sample_manifest
                   sample_reference_builder)
                "use_local_manifest").
  apply Hall.
  - sample_scheduled.
  - rewrite force_keys_custom. sample_decide.
Qed.

Lemma catalog_one_template_per_identity_witness :
  filter (λ w, identity w = ("fedora", true)) sample_catalog =
  [new_worker sample_setup "fedora" true].
Proof.
  apply (catalog_one_template_per_identity sample_setup sample_FLAVORS
           sample_FLAVORS_NoDup).
  sample_decide.
Defined.

Lemma builder_names_pairwise_distinct_witness :
  NoDup (bc_name <$>
           c_builders sample_setup sample_FLAVORS sample_worker_name).
Proof.
  apply (builder_names_pairwise_distinct sample_setup sample_FLAVORS
           sample_worker_name sample_FLAVORS_NoDup).
Defined.

Lemma docker_access_confined_to_local_worker_witness :
  bc_workernames
    (docker_image_builder sample_setup sample_worker_name "fedora") =
  ["_docker-client-localworker"].
Proof.
  apply (docker_access_confined_to_local_worker sample_setup sample_FLAVORS
           sample_worker_name).
  - apply elem_of_all_builders. left. exists "fedora".
    split; [sample_decide | reflexivity].
  - exact I.
Defined.

Lemma periodic_never_produce_and_reuse_witness :
  ¬ (default ∅
       (periodic_properties
          (clipos_incremental_build_intraday_sched sample_setup
             sample_FLAVORS sample_worker_name sample_reference_builder))
       !! produce_key "sdks" = Some (VBool true)
     ∧ default ∅
         (periodic_properties
            (clipos_incremental_build_intraday_sched sample_setup
               sample_FLAVORS sample_worker_name sample_reference_builder))
         !! reuse_key "sdks" = Some (VBool true)).
Proof.
  apply (periodic_never_produce_and_reuse sample_setup sample_FLAVORS
           sample_worker_name sample_manifest sample_master
           sample_config_loads
           (clipos_incremental_build_intraday_sched sample_setup
              sample_FLAVORS sample_worker_name sample_reference_builder)).
  - sample_scheduled.
  - reflexivity.
Defined.

Lemma forced_keys_recognized_manifest_or_form_witness :
  recognized_key "reuse_sdks_artifacts"
  ∨ "reuse_sdks_artifacts" = "use_local_manifest"
  ∨ "reuse_sdks_artifacts" = "local_manifest_xml"
  ∨ "reuse_sdks_artifacts" = "username"
  ∨ "reuse_sdks_artifacts" = "reason".
Proof.
  apply (proj1 (forced_keys_recognized_manifest_or_form sample_setup
                  sample_FLAVORS sample_worker_name sample_manifest
                  sample_master sample_config_loads)
           (clipos_custom_build_force_sched sample_setup sample_FLAVORS
              sample_worker_name sample_manifest sample_reference_builder)).
  - sample_scheduled.
  - rewrite force_keys_custom. sample_decide.
Defined.

Lemma forced_reuse_true_produce_false_witness :
  filter (λ key, has_shape "reuse_" "_artifacts" key)
    (force_keys
       (clipos_custom_build_force_sched sample_setup sample_FLAVORS
          sample_worker_name sample_manifest sample_reference_builder)) =
  [reuse_key "sdks"; reuse_key "cache"].
Proof.
  apply (forced_reuse_true_produce_false sample_setup sample_FLAVORS
           sample_worker_name sample_manifest sample_master
           sample_config_loads).
Defined.

Lemma forced_source_target_defaults_witness :
  reference_clipos_builder sample_setup sample_FLAVORS sample_worker_name =
  Some sample_reference_builder.
Proof.
  apply (forced_source_target_defaults sample_setup sample_FLAVORS
           sample_worker_name sample_manifest sample_master
           sample_config_loads).
Defined.

Lemma reference_flavor_cadence_witness :
  filter (λ fl, fl = reference_worker_flavor) sample_FLAVORS.*1 =
  [reference_worker_flavor].
Proof.
  apply (reference_flavor_cadence sample_setup sample_FLAVORS
           sample_worker_name sample_manifest sample_master
           sample_FLAVORS_NoDup sample_names_NoDup sample_config_loads).
Defined.

(** *** The further properties on the samples *)

Ltac sample_registered :=
  apply (proj2 (elem_of_all_builders sample_setup sample_FLAVORS
                  sample_worker_name _)).

Lemma module_loads_iff_reference_flavor_witness :
  is_Some sample_config
  ∧ BuildmasterConfig sample_setup sample_FLAVORS_without_reference
      sample_worker_name sample_manifest = None.
Proof.
  split.
  - apply (module_loads_iff_reference_flavor sample_setup sample_FLAVORS
             sample_worker_name sample_manifest).
    sample_decide.
  - pose proof (module_loads_iff_reference_flavor sample_setup
                  sample_FLAVORS_without_reference sample_worker_name
                  sample_manifest) as (_ & [_ Hfails] & _).
    apply Hfails. sample_decide.
Defined.

Lemma ondemand_shares_reference_workers_witness :
  bc_workernames
    (clipos_ondemand_builder sample_setup sample_FLAVORS sample_worker_name) =
  bc_workernames sample_reference_builder.
Proof.
  apply (ondemand_shares_reference_workers sample_setup sample_FLAVORS
           sample_worker_name).
Defined.

Lemma no_reference_flavor_no_reference_workers_witness :
  bc_workernames
    (repo_sync_builder sample_setup sample_FLAVORS_without_reference
       sample_worker_name) = [].
Proof.
  apply (no_reference_flavor_no_reference_workers sample_setup
           sample_FLAVORS_without_reference sample_worker_name
           sample_manifest).
  sample_decide.
Defined.

Lemma builder_workernames_registered_witness :
  "docker-env-debian-sid-unprivileged"
    ∈ worker_name sample_worker_name <$>
        c_workers sample_setup sample_FLAVORS.
Proof.
  apply (builder_workernames_registered sample_setup sample_FLAVORS
           sample_worker_name
           (repo_sync_builder sample_setup sample_FLAVORS
              sample_worker_name)).
  - sample_registered. auto.
  - sample_decide.
Defined.

Lemma loaded_builders_have_one_worker_witness :
  length
    (bc_workernames
       (repo_sync_builder sample_setup sample_FLAVORS sample_worker_name)) =
  1.
Proof.
  apply (loaded_builders_have_one_worker sample_setup sample_FLAVORS
           sample_worker_name sample_manifest sample_master
           sample_FLAVORS_NoDup sample_config_loads).
  sample_registered. auto.
Defined.

Lemma scheduler_builders_registered_witness :
  "clipos env:fedora" ∈ bc_name <$> builders sample_master.
Proof.
  apply (scheduler_builders_registered sample_setup sample_FLAVORS
           sample_worker_name sample_manifest sample_master
           sample_config_loads
           (clipos_build_weekly_sched sample_setup sample_FLAVORS
              sample_worker_name)).
  - sample_scheduled.
  - sample_decide.
Defined.

Lemma every_builder_is_triggered_witness :
  ∃ s, s ∈ schedulers sample_master
       ∧ bc_name (docker_image_builder sample_setup sample_worker_name
                    "fedora")
           ∈ sched_builderNames s
       ∧ (bc_name (docker_image_builder sample_setup sample_worker_name
                     "fedora") ≠ "clipos ondemand" →
          is_Some (periodic_properties s)).
Proof.
  apply (every_builder_is_triggered sample_setup sample_FLAVORS
           sample_worker_name sample_manifest sample_master
           sample_config_loads).
  sample_registered. left. exists "fedora".
  split; [sample_decide | reflexivity].
Defined.

Lemma ondemand_forced_flavors_periodic_witness :
  sched_builderNames
    (clipos_custom_build_force_sched sample_setup sample_FLAVORS
       sample_worker_name sample_manifest sample_reference_builder) =
  ["clipos ondemand"].
Proof.
  apply (ondemand_forced_flavors_periodic sample_setup sample_FLAVORS
           sample_worker_name sample_manifest sample_master
           sample_config_loads).
Defined.

Lemma artifact_providers_are_supplied_witness :
  "clipos" ∈ bc_name <$> builders sample_master.
Proof.
  apply (artifact_providers_are_supplied sample_setup sample_FLAVORS
           sample_worker_name sample_manifest sample_master
           sample_config_loads
           (clipos_incremental_build_intraday_sched sample_setup
              sample_FLAVORS sample_worker_name sample_reference_builder)
           "sdks").
  - sample_scheduled.
  - sample_decide.
Defined.

Lemma custom_build_covers_periodic_properties_witness :
  ("reuse_sdks_artifacts" = "scheduler"
   ∧ VBool true =
       VStr (sched_name
               (clipos_incremental_build_intraday_sched sample_setup
                  sample_FLAVORS sample_worker_name
                  sample_reference_builder)))
  ∨ ∃ p, ("reuse_sdks_artifacts", p)
           ∈ force_leaves
               (clipos_custom_build_force_sched sample_setup sample_FLAVORS
                  sample_worker_name sample_manifest
                  sample_reference_builder)
         ∧ param_admits p (VBool true).
Proof.
  apply (proj1 (custom_build_covers_periodic_properties sample_setup
                  sample_FLAVORS sample_worker_name sample_manifest
                  sample_master sample_config_loads)
           (clipos_incremental_build_intraday_sched sample_setup
              sample_FLAVORS sample_worker_name sample_reference_builder)).
  - sample_scheduled.
  - by vm_compute.
Defined.

Lemma codebase_follows_factory_witness :
  sched_repository
    (clipos_build_weekly_sched sample_setup sample_FLAVORS sample_worker_name)
  = Some (clipos_manifest_git_url sample_setup)
  ∧ sched_branch
      (clipos_build_weekly_sched sample_setup sample_FLAVORS
         sample_worker_name)
    = Some "master".
Proof.
  apply (codebase_follows_factory sample_setup sample_FLAVORS
           sample_worker_name sample_manifest sample_master
           sample_config_loads
           (clipos_build_weekly_sched sample_setup sample_FLAVORS
              sample_worker_name)
           (clipos_builder sample_setup sample_FLAVORS sample_worker_name
              "fedora")).
  - sample_scheduled.
  - sample_registered. right; right; left. exists "fedora".
    split; [sample_decide | reflexivity].
  - sample_decide.
Defined.

Lemma builder_tags_name_the_flavor_witness :
  "docker-env:fedora"
    ∈ bc_tags
        (clipos_builder sample_setup sample_FLAVORS sample_worker_name
           "fedora").
Proof.
  apply (proj1 (builder_tags_name_the_flavor sample_setup sample_FLAVORS
                  sample_worker_name sample_names_NoDup)
           (clipos_builder sample_setup sample_FLAVORS sample_worker_name
              "fedora")
           (new_worker sample_setup "fedora" true)).
  - sample_registered. right; right; left. exists "fedora".
    split; [sample_decide | reflexivity].
  - sample_decide.
  - sample_decide.
Defined.

Lemma only_quicksync_has_force_flag_witness :
  periodic_value
    (clipos_build_weekly_sched sample_setup sample_FLAVORS sample_worker_name)
    (force_key "repo_quicksync") = Some (VBool true).
Proof.
  apply (only_quicksync_has_force_flag sample_setup sample_FLAVORS
           sample_worker_name sample_manifest sample_master
           sample_config_loads).
Defined.
